(** * quick-labs / labs/docker/multi-service: the two HTTP services

    A shallow embedding of [service-a/main.go] (the authenticated greeting
    service) and [service-b/main.go] (the service that calls it and merges
    the answer), together with the parts of the Go runtime the handlers
    lean on: [crypto/subtle], [net/textproto] header keys, [context]
    values, the [net/http] response writer and mux, [log/slog] records.

    Handlers are written in a state-and-panic monad over a [World] that
    holds the response writer, the log and the trace of outbound calls.
    Whatever the handlers obtain from outside the process (identifiers,
    clock readings, the upstream's answer, the fate of a write to the
    connection) is read from an [Env]; the properties hold for every
    [Env].  [uuid.New] is taken to succeed: it panics only when the
    system's entropy source fails. *)

From Stdlib Require Import ZArith String Ascii List Lia DecimalString.
From stdpp Require Import base option strings gmap list.

Local Open Scope Z_scope.

(** ** Bytes and strings, as Go has them *)

(** A Go [string] is a sequence of bytes; [len] counts bytes. *)
Definition byte_of_ascii (c : ascii) : Z := Z.of_N (N_of_ascii c).

Definition bytes (s : string) : list Z :=
  List.map byte_of_ascii (list_ascii_of_string s).

Definition len (s : string) : nat := String.length s.

Definition newline : string := String "010" "".

(** [%d] of an [int]. *)
Definition itoa (n : Z) : string := NilZero.string_of_int (Z.to_int n).

(** [s[lo:hi]], for [lo <= hi <= len s] (Go panics otherwise; every use
    below is guarded by a length test that puts it in range). *)
Definition slice (s : string) (lo hi : nat) : string :=
  substring lo (hi - lo) s.

Module subtle.

(** [func ConstantTimeByteEq(x, y uint8) int {
       return int((uint32(x^y) - 1) >> 31) }] *)
Definition ConstantTimeByteEq (x y : Z) : Z :=
  Z.shiftr ((Z.lxor x y - 1) mod 2 ^ 32) 31.

(** The loop [for i := 0; i < len(x); i++ { v |= x[i] ^ y[i] }]. *)
Fixpoint accumulate (v : Z) (x y : list Z) : Z :=
  match x, y with
  | a :: x', b :: y' => accumulate (Z.lor v (Z.lxor a b)) x' y'
  | _, _ => v
  end.

Definition ConstantTimeCompare (x y : list Z) : Z :=
  if negb (Nat.eqb (length x) (length y)) then 0
  else ConstantTimeByteEq (accumulate 0 x y) 0.

End subtle.

Module textproto.

Definition is_lower (c : ascii) : bool :=
  let n := nat_of_ascii c in (97 <=? n)%nat && (n <=? 122)%nat.
Definition is_upper (c : ascii) : bool :=
  let n := nat_of_ascii c in (65 <=? n)%nat && (n <=? 90)%nat.
Definition is_digit (c : ascii) : bool :=
  let n := nat_of_ascii c in (48 <=? n)%nat && (n <=? 57)%nat.

(** The token characters of RFC 7230. *)
Definition validHeaderFieldByte (c : ascii) : bool :=
  is_lower c || is_upper c || is_digit c
  || existsb (Ascii.eqb c) (list_ascii_of_string "!#$%&'*+-.^_`|~").

Definition to_upper (c : ascii) : ascii :=
  if is_lower c then ascii_of_nat (nat_of_ascii c - 32) else c.
Definition to_lower (c : ascii) : ascii :=
  if is_upper c then ascii_of_nat (nat_of_ascii c + 32) else c.

(** The rewriting loop: upper-case the first letter and every letter
    after a hyphen, lower-case the others. *)
Fixpoint canonicalize (upper : bool) (a : list ascii) : list ascii :=
  match a with
  | [] => []
  | c :: a' =>
      let c' := if upper then to_upper c else to_lower c in
      c' :: canonicalize (Ascii.eqb c' "-") a'
  end.

(** A key holding a byte that is no token character is left as it is. *)
Definition CanonicalMIMEHeaderKey (s : string) : string :=
  let a := list_ascii_of_string s in
  if forallb validHeaderFieldByte a
  then string_of_list_ascii (canonicalize true a)
  else s.

(** [TrimString]: the string without its leading and trailing ASCII
    space, which is one of blank, tab, line feed and carriage return. *)
Definition isASCIISpace (c : ascii) : bool :=
  let b := byte_of_ascii c in
  (b =? 32) || (b =? 9) || (b =? 10) || (b =? 13).

Fixpoint trimLeft (a : list ascii) : list ascii :=
  match a with
  | [] => []
  | c :: a' => if isASCIISpace c then trimLeft a' else a
  end.

Definition TrimString (s : string) : string :=
  string_of_list_ascii
    (List.rev (trimLeft (List.rev (trimLeft (list_ascii_of_string s))))).

End textproto.

(** ** net/http: headers *)

Module http.

Definition StatusOK : Z := 200.
Definition StatusUnauthorized : Z := 401.
Definition StatusNotFound : Z := 404.
Definition StatusInternalServerError : Z := 500.
Definition StatusServiceUnavailable : Z := 503.

(** [type Header map[string][]string], keyed by canonical names. *)
Abbreviation Header := (gmap string (list string)).

Definition Get (h : Header) (key : string) : string :=
  match h !! textproto.CanonicalMIMEHeaderKey key with
  | Some (v :: _) => v
  | _ => ""
  end.

Definition Set_ (h : Header) (key value : string) : Header :=
  <[textproto.CanonicalMIMEHeaderKey key := [value]]> h.

(** [httpguts.ValidHeaderFieldValue], which the transport asks of every
    header value before it sends a request: no control byte but the
    tab. *)
Definition isCTL (b : Z) : bool := (b <? 32) || (b =? 127).
Definition isLWS (b : Z) : bool := (b =? 32) || (b =? 9).

Definition ValidHeaderFieldValue (v : string) : bool :=
  forallb (fun c => negb (isCTL (byte_of_ascii c) && negb (isLWS (byte_of_ascii c))))
    (list_ascii_of_string v).


End http.

(** ** context: request-scoped values *)

Module context.

(** A key is compared as an interface value: by dynamic type and value.
    The handlers use the plain string ["request_id"]; the server's own
    keys are of the unexported pointer type [*http.contextKey]. *)
Inductive Key :=
| KString (s : string)
| KServer (name : string).

Inductive Val :=
| VString (s : string)
| VOpaque.

#[global] Instance Key_eq_dec : EqDecision Key.
Proof. solve_decision. Defined.

(** Innermost binding first. *)
Definition Context := list (Key * Val).

Definition WithValue (parent : Context) (k : Key) (v : Val) : Context :=
  (k, v) :: parent.

(** [ctx.Value(k)]: [None] is the nil interface. *)
Fixpoint Value (ctx : Context) (k : Key) : option Val :=
  match ctx with
  | [] => None
  | (k', v) :: parent => if decide (k' = k) then Some v else Value parent k
  end.

End context.

(** ** The world a handler runs in *)

(** What one [Write] or [Encode] hands to the connection.  [encoding/json]
    is kept symbolic: a struct is its ordered list of tagged fields, a
    [map[string]string] is the map. *)
Inductive JSON :=
| JStr (s : string)
| JTime (t : Z).

Inductive Chunk :=
| Text (s : string)
| JObject (fields : list (string * JSON))
| JMap (m : gmap string string).

Record ResponseWriter := {
  header : http.Header;
  (* the status line and the headers sent with it, once written *)
  wrote : option (Z * http.Header);
  body : list Chunk
}.

Definition newResponseWriter : ResponseWriter :=
  {| header := ∅; wrote := None; body := [] |}.

Inductive Attr :=
| AString (key value : string)
| AInt (key : string) (value : Z)
| ADuration (key : string) (value : Z)
| ABool (key : string) (value : bool).

Record LogRecord := {
  level : Z;
  msg : string;
  attrs : list Attr
}.

(** The request [http.NewRequestWithContext] builds for the client. *)
Record OutRequest := {
  out_method : string;
  out_url : string;
  out_header : http.Header;
  out_ctx : context.Context
}.

Inductive BodyResult :=
| BodyErr (e : string)
| BodyOk (data : string).

(** [*http.Response]: the status code and what [io.ReadAll(resp.Body)]
    will give. *)
Record HTTPResponse := {
  StatusCode : Z;
  Body : BodyResult
}.

Inductive DoResult :=
| DoErr (e : string)
| DoResp (resp : HTTPResponse).

Record World := {
  rw : ResponseWriter;
  logs : list LogRecord;
  outbound : list OutRequest;
  n_uuid : nat;
  n_now : nat;
  n_write : nat
}.

(** Everything a handler obtains from outside the process. *)
Record Env (payload : Type) := {
  (* the n-th value of uuid.New().String() *)
  uuids : nat -> string;
  (* the n-th reading of time.Now(), in nanoseconds *)
  clock : nat -> Z;
  (* t.Format(time.RFC3339) *)
  rfc3339 : Z -> string;
  (* the error of url.Parse, if any *)
  url_error : string -> option string;
  (* what the client's Do returns for a request *)
  do_result : OutRequest -> DoResult;
  (* json.Unmarshal into the payload struct: an error or the value *)
  unmarshal : string -> string + payload;
  (* the error of the n-th write to the client connection, if any *)
  write_error : nat -> option string
}.

Arguments uuids {payload}.
Arguments clock {payload}.
Arguments rfc3339 {payload}.
Arguments url_error {payload}.
Arguments do_result {payload}.
Arguments unmarshal {payload}.
Arguments write_error {payload}.

(** ** The handler monad: state, and a panic that unwinds *)

Inductive Outcome (A : Type) :=
| Ret (a : A)
| Panic (reason : string).

Arguments Ret {A}.
Arguments Panic {A}.

Definition M (A : Type) : Type := World -> Outcome A * World.

Definition ret {A} (a : A) : M A := fun w => (Ret a, w).

Definition bind {A B} (m : M A) (k : A -> M B) : M B :=
  fun w =>
    match m w with
    | (Ret a, w') => k a w'
    | (Panic reason, w') => (Panic reason, w')
    end.

Definition panic {A} (reason : string) : M A := fun w => (Panic reason, w).

Definition modify (f : World -> World) : M unit := fun w => (Ret tt, f w).

Notation "'let*' x ':=' m 'in' k" := (bind m (fun x => k))
  (at level 10, x name, m at level 100, k at level 200).
Notation "m ';;' k" := (bind m (fun _ => k))
  (at level 100, k at level 200, right associativity).

(** Updates of one field of the world. *)
Definition set_rw (f : ResponseWriter -> ResponseWriter) (w : World) : World :=
  let '(Build_World r l o nu nn nw) := w in Build_World (f r) l o nu nn nw.

Definition add_log (rs : list LogRecord) (w : World) : World :=
  let '(Build_World r l o nu nn nw) := w in Build_World r (l ++ rs) o nu nn nw.

Definition add_outbound (q : OutRequest) (w : World) : World :=
  let '(Build_World r l o nu nn nw) := w in Build_World r l (o ++ [q]) nu nn nw.

Definition tick_uuid (w : World) : World :=
  let '(Build_World r l o nu nn nw) := w in Build_World r l o (S nu) nn nw.

Definition tick_now (w : World) : World :=
  let '(Build_World r l o nu nn nw) := w in Build_World r l o nu (S nn) nw.

Definition tick_write (w : World) : World :=
  let '(Build_World r l o nu nn nw) := w in Build_World r l o nu nn (S nw).

(** The [map[string]string] literal both health handlers build. *)
Definition healthStatus (timestamp requestID port : string)
  : gmap string string :=
  <["server_port" := port]>
    (<["request_id" := requestID]>
       (<["timestamp" := timestamp]>
          (<["status" := "healthy"]> ∅))).

(** ** net/http: requests, the response writer, the mux *)

Record Request := {
  Method : string;
  Path : string;            (* r.URL.Path *)
  ReqHeader : http.Header;  (* r.Header *)
  RemoteAddr : string;
  Ctx : context.Context     (* r.Context() *)
}.

Definition WithContext (r : Request) (ctx : context.Context) : Request :=
  {| Method := Method r; Path := Path r; ReqHeader := ReqHeader r;
     RemoteAddr := RemoteAddr r; Ctx := ctx |}.

(** What the server reads off a connection.  The request it hands to the
    mux carries the server's base context, which binds the server's two
    keys and no string key. *)
Record Inbound := {
  in_method : string;
  in_path : string;
  in_header : http.Header;
  in_addr : string
}.

Definition baseContext : context.Context :=
  [(context.KServer "local-addr", context.VOpaque);
   (context.KServer "http-server", context.VOpaque)].

Definition readRequest (i : Inbound) : Request :=
  {| Method := in_method i; Path := in_path i; ReqHeader := in_header i;
     RemoteAddr := in_addr i; Ctx := baseContext |}.

Definition Handler := Request -> M unit.

Definition nil_assertion : string :=
  "interface conversion: interface {} is nil, not string".

(** [v.(string)] on the result of [ctx.Value]. *)
Definition assert_string (v : option context.Val) : M string :=
  match v with
  | Some (context.VString s) => ret s
  | Some context.VOpaque =>
      panic "interface conversion: interface {} is not string"
  | None => panic nil_assertion
  end.

Definition setHeader (h : http.Header) (r : ResponseWriter) : ResponseWriter :=
  let '(Build_ResponseWriter _ wr b) := r in Build_ResponseWriter h wr b.

Definition commit (code : Z) (r : ResponseWriter) : ResponseWriter :=
  let '(Build_ResponseWriter h _ b) := r in
  Build_ResponseWriter h (Some (code, h)) b.

Definition append (cs : list Chunk) (r : ResponseWriter) : ResponseWriter :=
  let '(Build_ResponseWriter h wr b) := r in
  Build_ResponseWriter h wr (b ++ cs).

(** What a write adds to the body the writer holds. *)
Definition deliver (err : option string) (c : Chunk)
  : ResponseWriter -> ResponseWriter :=
  append (match err with None => [c] | Some _ => [] end).

(** [w.Header().Set(key, value)] *)
Definition Header_Set (key value : string) : M unit :=
  modify (set_rw (fun r => setHeader (http.Set_ (header r) key value) r)).

(** [w.WriteHeader(code)]: ignored once a status is out; panics on a code
    outside 100..999; a 1xx code other than 101 goes out as an
    informational response and commits nothing. *)
Definition WriteHeader (code : Z) : M unit :=
  fun w =>
    match wrote (rw w) with
    | Some _ => (Ret tt, w)
    | None =>
        if (code <? 100) || (999 <? code)
        then (Panic "invalid WriteHeader code", w)
        else if (code <=? 199) && negb (code =? 101)
        then (Ret tt, w)
        else (Ret tt, set_rw (commit code) w)
    end.

(** [bodyAllowedForStatus]: no body with 1xx, 204 and 304. *)
Definition bodyAllowedForStatus (code : Z) : bool :=
  negb ((100 <=? code) && (code <=? 199))
  && negb (code =? 204) && negb (code =? 304).

Definition ErrBodyNotAllowed : string :=
  "http: request method or response status code does not allow body".

(** [log/slog]: a logger is its minimum level. *)
Definition Logger := Z.
Definition LevelDebug : Z := -4.
Definition LevelInfo : Z := 0.
Definition LevelWarn : Z := 4.
Definition LevelError : Z := 8.

(** A record reaches the log when its level is enabled. *)
Definition emit (l : Logger) (r : LogRecord) (w : World) : World :=
  add_log (if l <=? level r then [r] else []) w.

Definition log (l : Logger) (lvl : Z) (m : string) (a : list Attr) : M unit :=
  modify (emit l {| level := lvl; msg := m; attrs := a |}).

Definition Info (l : Logger) := log l LevelInfo.
Definition Warn (l : Logger) := log l LevelWarn.
Definition Error (l : Logger) := log l LevelError.

Section Runtime.

Context {payload : Type} (E : Env payload).

Definition uuid_New : M string :=
  fun w => (Ret (uuids E (n_uuid w)), tick_uuid w).

Definition time_Now : M Z :=
  fun w => (Ret (clock E (n_now w)), tick_now w).

Definition time_Since (t : Z) : M Z :=
  let* now := time_Now in ret (now - t).

(** [w.Write]: a first write commits status 200; a status that allows no
    body refuses the write; otherwise the writer takes the chunk unless
    the connection reports an error, which is returned.  (For a HEAD
    request the server later keeps the accepted chunks off the wire.) *)
Definition Write (c : Chunk) : M (option string) :=
  WriteHeader http.StatusOK;;
  fun w =>
    match wrote (rw w) with
    | None => (Panic "bodyAllowed called before the header was written", w)
    | Some (code, _) =>
        if bodyAllowedForStatus code
        then
          let err := write_error E (n_write w) in
          (Ret err, tick_write (set_rw (deliver err c) w))
        else (Ret (Some ErrBodyNotAllowed), w)
    end.

(** [json.NewEncoder(w).Encode(v)], for a value already in symbolic form. *)
Definition Encode (v : Chunk) : M (option string) := Write v.

(** [http.Error(w, error, code)], as of the Go 1.21 of the Dockerfiles;
    the body is [fmt.Fprintln(w, error)]. *)
Definition http_Error (error : string) (code : Z) : M unit :=
  Header_Set "Content-Type" "text/plain; charset=utf-8";;
  Header_Set "X-Content-Type-Options" "nosniff";;
  WriteHeader code;;
  Write (Text (error +:+ newline));;
  ret tt.

(** The mux, for the exact patterns the services register, which match a
    path equal to the pattern; any other path is answered here by
    [http.NotFound] (the redirects of paths that need cleaning are left
    out). *)
Fixpoint route (routes : list (string * Handler)) (path : string)
  : option Handler :=
  match routes with
  | [] => None
  | (pattern, h) :: rest =>
      if String.eqb pattern path then Some h else route rest path
  end.

Definition serveMux (routes : list (string * Handler)) (r : Request) : M unit :=
  match route routes (Path r) with
  | Some h => h r
  | None => http_Error "404 page not found" http.StatusNotFound
  end.

(** One request through the server: a new response writer, the request
    with the base context, the mux.  A panic that leaves the handler is
    recovered by the server, which closes the connection: a response
    writer that has committed no status has sent nothing. *)
Definition serve (routes : list (string * Handler)) (i : Inbound) : M unit :=
  modify (set_rw (fun _ => newResponseWriter));;
  serveMux routes (readRequest i).

End Runtime.

(** ** Errors of the listener, levels as text, the background context *)

(** An [error] returned by [ListenAndServe] or by the server's [Shutdown]:
    [http.ErrServerClosed], or an error that neither is nor wraps it. *)
Inductive error :=
| ErrServerClosed
| ErrOther (text : string).

(** [err.Error()] *)
Definition error_text (e : error) : string :=
  match e with
  | ErrServerClosed => "http: Server closed"
  | ErrOther text => text
  end.

(** [errors.Is(err, http.ErrServerClosed)] *)
Definition is_ErrServerClosed (e : error) : bool :=
  match e with
  | ErrServerClosed => true
  | ErrOther _ => false
  end.

(** [%+d] *)
Definition signed (n : Z) : string :=
  if n <? 0 then itoa n else "+" +:+ itoa n.

(** [slog.Level.String]: the name of the level at or below, and the
    offset from it when there is one. *)
Definition levelString (l : Z) : string :=
  let str (base : string) (val : Z) :=
    if val =? 0 then base else base +:+ signed val in
  if l <? LevelInfo then str "DEBUG" (l - LevelDebug)
  else if l <? LevelWarn then str "INFO" (l - LevelInfo)
  else if l <? LevelError then str "WARN" (l - LevelWarn)
  else str "ERROR" (l - LevelError).

(** [context.Background()]; the deadline [context.WithTimeout] adds is a
    matter of real time and binds no value. *)
Definition Background : context.Context := [].

(** The package-level logger [slog.Info] and [slog.Warn] write to: its
    level is Info. *)
Definition defaultLogger : Logger := LevelInfo.

Definition record (lvl : Z) (m : string) (a : list Attr) : LogRecord :=
  {| level := lvl; msg := m; attrs := a |}.

(** ** service-a/main.go *)

Module ServiceA.

Record Config := {
  Port : string;
  LogLevel : Z;
  AuthKey : string
}.

Record Response := {
  Message : string;
  RequestID : string;
  Timestamp : Z
}.

(** The struct with its [json] tags, in declaration order. *)
Definition encode (v : Response) : Chunk :=
  JObject [("message", JStr (Message v));
           ("request_id", JStr (RequestID v));
           ("timestamp", JTime (Timestamp v))].

Record Server := {
  config : Config;
  logger : Logger
}.

(** [maskAuthKey] masks the authentication key for logging. *)
Definition maskAuthKey (key : string) : string :=
  if (4 <? len key)%nat
  then slice key 0 2 +:+ "****" +:+ slice key (len key - 2) (len key)
  else "****".

Section Handlers.

Context {payload : Type} (E : Env payload).

Definition authMiddleware (s : Server) (next : Handler) : Handler :=
  fun r =>
    let* requestID := uuid_New E in
    let ctx :=
      context.WithValue (Ctx r) (context.KString "request_id")
        (context.VString requestID) in
    let r := WithContext r ctx in
    let authKey := http.Get (ReqHeader r) "X-Auth-Key" in
    let clientIP := RemoteAddr r in
    Info (logger s) "Authentication attempt"
      [AString "request_id" requestID; AString "client_ip" clientIP;
       AString "method" (Method r); AString "path" (Path r)];;
    if negb (subtle.ConstantTimeCompare (bytes authKey)
               (bytes (AuthKey (config s))) =? 1)
    then
      Warn (logger s) "Authentication failed"
        [AString "request_id" requestID; AString "client_ip" clientIP;
         AString "method" (Method r); AString "path" (Path r);
         AString "auth_key_provided" (maskAuthKey authKey)];;
      http_Error E "Unauthorized" http.StatusUnauthorized
    else
      Info (logger s) "Authentication successful"
        [AString "request_id" requestID; AString "client_ip" clientIP;
         AString "method" (Method r); AString "path" (Path r)];;
      next r.

Definition handleGreet (s : Server) : Handler :=
  fun r =>
    let* requestID :=
      assert_string (context.Value (Ctx r) (context.KString "request_id")) in
    let clientIP := RemoteAddr r in
    Info (logger s) "Processing greeting request"
      [AString "request_id" requestID; AString "client_ip" clientIP;
       AString "method" (Method r); AString "path" (Path r)];;
    let* now := time_Now E in
    let response :=
      {| Message := "Hello from Service A!"; RequestID := requestID;
         Timestamp := now |} in
    Header_Set "Content-Type" "application/json";;
    Header_Set "X-Request-ID" requestID;;
    WriteHeader http.StatusOK;;
    let* startTime := time_Now E in
    let* err := Encode E (encode response) in
    match err with
    | Some e =>
        let* elapsed := time_Since E startTime in
        Error (logger s) "Failed to encode response"
          [AString "error" e; AString "request_id" requestID;
           AString "client_ip" clientIP;
           ADuration "processing_time" elapsed];;
        http_Error E "Internal Server Error" http.StatusInternalServerError
    | None =>
        let* elapsed := time_Since E startTime in
        Info (logger s) "Greeting request processed successfully"
          [AString "request_id" requestID; AString "client_ip" clientIP;
           ADuration "processing_time" elapsed;
           AString "response_message" (Message response)]
    end.

Definition handleHealth (s : Server) : Handler :=
  fun r =>
    let* requestID := uuid_New E in
    let* startTime := time_Now E in
    Info (logger s) "Health check received"
      [AString "request_id" requestID; AString "client_ip" (RemoteAddr r);
       AString "method" (Method r); AString "path" (Path r)];;
    let* now := time_Now E in
    let status := healthStatus (rfc3339 E now) requestID (Port (config s)) in
    Header_Set "Content-Type" "application/json";;
    WriteHeader http.StatusOK;;
    Encode E (JMap status);;
    let* elapsed := time_Since E startTime in
    Info (logger s) "Health check completed"
      [AString "request_id" requestID;
       ADuration "processing_time" elapsed].

(** [NewServer]: the logger at the configured level, and the two routes. *)
Definition NewServer (config : Config) : Server :=
  {| config := config; logger := LogLevel config |}.

Definition mux (s : Server) : list (string * Handler) :=
  [("/greet", authMiddleware s (handleGreet s));
   ("/health", handleHealth s)].

Definition ServeHTTP (s : Server) (i : Inbound) : M unit :=
  serve E (mux s) i.

End Handlers.

(** The configuration [main] builds from the process environment. *)
Definition mainConfig (getenv : string -> string) : Config :=
  {| Port := if String.eqb (getenv "PORT") "" then "8080" else getenv "PORT";
     LogLevel := LevelInfo;
     AuthKey :=
       if String.eqb (getenv "AUTH_KEY") "" then "default-secret-key"
       else getenv "AUTH_KEY" |}.

(** [Start], given what [s.server.ListenAndServe()] returns. *)
Definition Start (s : Server) (listen : option error) : M (option error) :=
  Info (logger s) "Initializing server"
    [AString "port" (Port (config s));
     AString "log_level" (levelString (LogLevel (config s)));
     ABool "auth_configured" (negb (String.eqb (AuthKey (config s)) ""))];;
  match listen with
  | Some err =>
      if negb (is_ErrServerClosed err)
      then
        Error (logger s) "Server startup failed"
          [AString "error" (error_text err);
           AString "port" (Port (config s))];;
        ret (Some err)
      else ret None
  | None => ret None
  end.

(** [Shutdown], given what [s.server.Shutdown(ctx)] returns. *)
Definition Shutdown (s : Server) (ctx : context.Context)
  (down : option error) : M (option error) :=
  let* timeout :=
    assert_string (context.Value ctx (context.KString "timeout")) in
  Info (logger s) "Initiating graceful shutdown"
    [AString "timeout" timeout];;
  match down with
  | Some err =>
      Error (logger s) "Graceful shutdown failed"
        [AString "error" (error_text err)];;
      ret (Some err)
  | None =>
      Info (logger s) "Server shutdown completed successfully" [];;
      ret None
  end.

(** [main], up to [NewServer]: the configuration, and the records the
    package-level logger writes about the defaults it took. *)
Definition loadConfig (getenv : string -> string)
  : Config * list LogRecord :=
  let port := getenv "PORT" in
  let key := getenv "AUTH_KEY" in
  let '(port, log_port) :=
    if String.eqb port ""
    then ("8080",
          [record LevelInfo "No port specified, using default"
             [AString "default_port" "8080"]])
    else (port, []) in
  let '(key, log_key) :=
    if String.eqb key ""
    then ("default-secret-key",
          [record LevelWarn
             "No authentication key provided, using default. This is NOT recommended for production!"
             [AString "default_key" (maskAuthKey "default-secret-key")]])
    else (key, []) in
  ({| Port := port; LogLevel := LevelInfo; AuthKey := key |},
   log_port ++ log_key).

(** The goroutine of [main]: the exit status when it ends the process. *)
Definition startServer (s : Server) (listen : option error)
  : M (option Z) :=
  let* err := Start s listen in
  match err with
  | Some e =>
      if negb (is_ErrServerClosed e)
      then
        Error (logger s) "Server start error"
          [AString "error" (error_text e);
           AString "port" (Port (config s))];;
        ret (Some 1)
      else ret None
  | None => ret None
  end.

(** [main], from the arrival of the signal on. *)
Definition shutdownOnSignal (s : Server) (down : option error) : M unit :=
  let ctx :=
    context.WithValue Background (context.KString "timeout")
      (context.VString "10s") in
  let* err := Shutdown s ctx down in
  match err with
  | Some e =>
      Error (logger s) "Server shutdown error"
        [AString "error" (error_text e); AString "timeout" "10s"]
  | None => ret tt
  end;;
  Info (logger s) "Service A shutdown complete" [].

End ServiceA.

(** ** service-b/main.go *)

Module ServiceB.

Record Config := {
  Port : string;
  LogLevel : Z;
  ServiceAURL : string;
  ServiceAAuthKey : string
}.

Record ServiceAResponse := {
  sa_Message : string;
  sa_RequestID : string;
  sa_Timestamp : Z
}.

Record Response := {
  ServiceAMessage : string;
  ServiceBMessage : string;
  RequestID : string;
  Timestamp : Z
}.

Definition encode (v : Response) : Chunk :=
  JObject [("service_a_message", JStr (ServiceAMessage v));
           ("service_b_message", JStr (ServiceBMessage v));
           ("request_id", JStr (RequestID v));
           ("timestamp", JTime (Timestamp v))].

Record Server := {
  config : Config;
  logger : Logger
}.

(** [maskAuthKey] masks the authentication key for logging. *)
Definition maskAuthKey (key : string) : string :=
  if (4 <? len key)%nat
  then slice key 0 2 +:+ "****" +:+ slice key (len key - 2) (len key)
  else "****".

(** The request to Service A once [http.NewRequestWithContext] has
    succeeded and both headers are set. *)
Definition greetRequest (s : Server) (ctx : context.Context)
  (requestID : string) : OutRequest :=
  {| out_method := "GET";
     out_url := ServiceAURL (config s) +:+ "/greet";
     out_header :=
       http.Set_ (http.Set_ ∅ "X-Auth-Key" (ServiceAAuthKey (config s)))
         "X-Request-ID" requestID;
     out_ctx := ctx |}.

Section Handlers.

Context (E : Env ServiceAResponse).

(** [s.client.Do(req)] *)
Definition client_Do (req : OutRequest) : M DoResult :=
  fun w => (Ret (do_result E req), add_outbound req w).

Definition handleError (s : Server) (r : Request) (err : string)
  (logMessage : string) (statusCode : Z) : M unit :=
  let* requestID :=
    assert_string (context.Value (Ctx r) (context.KString "request_id")) in
  let clientIP := RemoteAddr r in
  Error (logger s) logMessage
    [AString "error" err; AString "request_id" requestID;
     AString "client_ip" clientIP; AString "method" (Method r);
     AString "path" (Path r); AInt "status_code" statusCode];;
  http_Error E logMessage statusCode.

Definition handleProcess (s : Server) : Handler :=
  fun r =>
    let* requestID := uuid_New E in
    let ctx :=
      context.WithValue (Ctx r) (context.KString "request_id")
        (context.VString requestID) in
    let clientIP := RemoteAddr r in
    Info (logger s) "Processing service interaction request"
      [AString "request_id" requestID; AString "client_ip" clientIP;
       AString "method" (Method r); AString "path" (Path r)];;
    let* startTime := time_Now E in
    match url_error E (ServiceAURL (config s) +:+ "/greet") with
    | Some err =>
        handleError s r err "Failed to create request to Service A"
          http.StatusInternalServerError
    | None =>
        let req := greetRequest s ctx requestID in
        Info (logger s) "Calling Service A"
          [AString "request_id" requestID;
           AString "service_a_url" (ServiceAURL (config s));
           AString "auth_key_masked"
             (maskAuthKey (ServiceAAuthKey (config s)))];;
        let* res := client_Do req in
        match res with
        | DoErr err =>
            handleError s r err "Failed to call Service A"
              http.StatusServiceUnavailable
        | DoResp resp =>
            Info (logger s) "Received response from Service A"
              [AString "request_id" requestID;
               AInt "status_code" (StatusCode resp)];;
            if negb (StatusCode resp =? http.StatusOK)
            then
              handleError s r
                ("service A returned status " +:+ itoa (StatusCode resp))
                "Service A request failed" (StatusCode resp)
            else
              match Body resp with
              | BodyErr err =>
                  handleError s r err "Failed to read Service A response"
                    http.StatusInternalServerError
              | BodyOk data =>
                  match unmarshal E data with
                  | inl err =>
                      handleError s r err
                        "Failed to parse Service A response"
                        http.StatusInternalServerError
                  | inr serviceAResp =>
                      let* now := time_Now E in
                      let response :=
                        {| ServiceAMessage := sa_Message serviceAResp;
                           ServiceBMessage := "Hello from Service B!";
                           RequestID := requestID;
                           Timestamp := now |} in
                      Header_Set "Content-Type" "application/json";;
                      Header_Set "X-Request-ID" requestID;;
                      WriteHeader http.StatusOK;;
                      Info (logger s) "Preparing response"
                        [AString "request_id" requestID;
                         AString "service_a_message"
                           (sa_Message serviceAResp);
                         AString "service_b_message"
                           (ServiceBMessage response)];;
                      let* err := Encode E (encode response) in
                      match err with
                      | Some e =>
                          let* elapsed := time_Since E startTime in
                          Error (logger s) "Failed to encode response"
                            [AString "error" e;
                             AString "request_id" requestID;
                             AString "client_ip" clientIP;
                             ADuration "processing_time" elapsed];;
                          http_Error E "Internal Server Error"
                            http.StatusInternalServerError
                      | None =>
                          let* elapsed := time_Since E startTime in
                          Info (logger s)
                            "Process request completed successfully"
                            [AString "request_id" requestID;
                             AString "client_ip" clientIP;
                             AString "service_a_request_id"
                               (sa_RequestID serviceAResp);
                             ADuration "processing_time" elapsed]
                      end
                  end
              end
        end
    end.

Definition handleHealth (s : Server) : Handler :=
  fun r =>
    let* requestID := uuid_New E in
    let* startTime := time_Now E in
    Info (logger s) "Health check received"
      [AString "request_id" requestID; AString "client_ip" (RemoteAddr r);
       AString "method" (Method r); AString "path" (Path r)];;
    let* now := time_Now E in
    let status := healthStatus (rfc3339 E now) requestID (Port (config s)) in
    Header_Set "Content-Type" "application/json";;
    WriteHeader http.StatusOK;;
    Encode E (JMap status);;
    let* elapsed := time_Since E startTime in
    Info (logger s) "Health check completed"
      [AString "request_id" requestID;
       ADuration "processing_time" elapsed].

Definition NewServer (config : Config) : Server :=
  {| config := config; logger := LogLevel config |}.

Definition mux (s : Server) : list (string * Handler) :=
  [("/process", handleProcess s);
   ("/health", handleHealth s)].

Definition ServeHTTP (s : Server) (i : Inbound) : M unit :=
  serve E (mux s) i.

End Handlers.

(** The configuration [main] builds from the process environment. *)
Definition mainConfig (getenv : string -> string) : Config :=
  {| Port := if String.eqb (getenv "PORT") "" then "8081" else getenv "PORT";
     LogLevel := LevelInfo;
     ServiceAURL :=
       if String.eqb (getenv "SERVICE_A_URL") "" then "http://service-a:8080"
       else getenv "SERVICE_A_URL";
     ServiceAAuthKey :=
       if String.eqb (getenv "SERVICE_A_AUTH_KEY") "" then "default-secret-key"
       else getenv "SERVICE_A_AUTH_KEY" |}.

(** [Start], given what [s.server.ListenAndServe()] returns. *)
Definition Start (s : Server) (listen : option error) : M (option error) :=
  Info (logger s) "Initializing server"
    [AString "port" (Port (config s));
     AString "log_level" (levelString (LogLevel (config s)));
     AString "service_a_url" (ServiceAURL (config s));
     ABool "service_a_auth_configured"
       (negb (String.eqb (ServiceAAuthKey (config s)) ""))];;
  match listen with
  | Some err =>
      if negb (is_ErrServerClosed err)
      then
        Error (logger s) "Server startup failed"
          [AString "error" (error_text err);
           AString "port" (Port (config s))];;
        ret (Some err)
      else ret None
  | None => ret None
  end.

(** [Shutdown], given what [s.server.Shutdown(ctx)] returns. *)
Definition Shutdown (s : Server) (ctx : context.Context)
  (down : option error) : M (option error) :=
  let* timeout :=
    assert_string (context.Value ctx (context.KString "timeout")) in
  Info (logger s) "Initiating graceful shutdown"
    [AString "timeout" timeout];;
  match down with
  | Some err =>
      Error (logger s) "Graceful shutdown failed"
        [AString "error" (error_text err)];;
      ret (Some err)
  | None =>
      Info (logger s) "Server shutdown completed successfully" [];;
      ret None
  end.

(** [main], up to [NewServer]: the configuration, and the records the
    package-level logger writes about the defaults it took. *)
Definition loadConfig (getenv : string -> string)
  : Config * list LogRecord :=
  let port := getenv "PORT" in
  let url := getenv "SERVICE_A_URL" in
  let key := getenv "SERVICE_A_AUTH_KEY" in
  let '(port, log_port) :=
    if String.eqb port ""
    then ("8081",
          [record LevelInfo "No port specified, using default"
             [AString "default_port" "8081"]])
    else (port, []) in
  let '(url, log_url) :=
    if String.eqb url ""
    then ("http://service-a:8080",
          [record LevelWarn "No Service A URL specified, using default"
             [AString "default_url" "http://service-a:8080"]])
    else (url, []) in
  let '(key, log_key) :=
    if String.eqb key ""
    then ("default-secret-key",
          [record LevelWarn
             "No authentication key provided, using default. This is NOT recommended for production!"
             [AString "default_key" (maskAuthKey "default-secret-key")]])
    else (key, []) in
  ({| Port := port; LogLevel := LevelInfo; ServiceAURL := url;
      ServiceAAuthKey := key |},
   log_port ++ log_url ++ log_key).

(** The goroutine of [main]: the exit status when it ends the process. *)
Definition startServer (s : Server) (listen : option error)
  : M (option Z) :=
  let* err := Start s listen in
  match err with
  | Some e =>
      if negb (is_ErrServerClosed e)
      then
        Error (logger s) "Server start error"
          [AString "error" (error_text e);
           AString "port" (Port (config s))];;
        ret (Some 1)
      else ret None
  | None => ret None
  end.

(** [main], from the arrival of the signal on. *)
Definition shutdownOnSignal (s : Server) (down : option error) : M unit :=
  let ctx :=
    context.WithValue Background (context.KString "timeout")
      (context.VString "10s") in
  let* err := Shutdown s ctx down in
  match err with
  | Some e =>
      Error (logger s) "Server shutdown error"
        [AString "error" (error_text e); AString "timeout" "10s"]
  | None => ret tt
  end;;
  Info (logger s) "Service B shutdown complete" [].

End ServiceB.

(** * Vocabulary of the properties *)

Definition is_byte (b : Z) : Prop := 0 <= b < 2 ^ 8.

(** The status line the client received, if any. *)
Definition status (w : World) : option Z := fst <$> wrote (rw w).

(** A header as sent with the status line; empty when absent or when
    nothing was sent. *)
Definition sentHeader (w : World) (key : string) : string :=
  match wrote (rw w) with
  | Some (_, h) => http.Get h key
  | None => ""
  end.

Definition is_json (c : Chunk) : bool :=
  match c with
  | Text _ => false
  | JObject _ | JMap _ => true
  end.

Fixpoint field (name : string) (fields : list (string * JSON))
  : option JSON :=
  match fields with
  | [] => None
  | (k, v) :: rest => if String.eqb k name then Some v else field name rest
  end.

(** A member of a JSON body. *)
Definition json_field (name : string) (c : Chunk) : option JSON :=
  match c with
  | Text _ => None
  | JObject fields => field name fields
  | JMap m => JStr <$> m !! name
  end.

(** The classes of failure of the call to Service A, each with the log
    message and the status code the orchestrator maps it to. *)
Inductive OutboundCallError (E : Env ServiceB.ServiceAResponse)
  (req : OutRequest) : string -> Z -> Prop :=
| RequestConstruction e :
    url_error E (out_url req) = Some e ->
    OutboundCallError E req "Failed to create request to Service A" 500
| Dispatch e :
    url_error E (out_url req) = None ->
    do_result E req = DoErr e ->
    OutboundCallError E req "Failed to call Service A" 503
| NonSuccess code b :
    url_error E (out_url req) = None ->
    do_result E req = DoResp {| StatusCode := code; Body := b |} ->
    code <> 200 ->
    OutboundCallError E req "Service A request failed" code
| BodyRead e :
    url_error E (out_url req) = None ->
    do_result E req = DoResp {| StatusCode := 200; Body := BodyErr e |} ->
    OutboundCallError E req "Failed to read Service A response" 500
| BodyDecode data e :
    url_error E (out_url req) = None ->
    do_result E req = DoResp {| StatusCode := 200; Body := BodyOk data |} ->
    unmarshal E data = inl e ->
    OutboundCallError E req "Failed to parse Service A response" 500.

(** The request a handler sees once an identifier is bound in its
    context under the string key ["request_id"]. *)
Definition withRequestID (r : Request) (id : string) : Request :=
  WithContext r
    (context.WithValue (Ctx r) (context.KString "request_id")
       (context.VString id)).

(** The combined response of a successful [/process]. *)
Definition combined (upstream : ServiceB.ServiceAResponse) (id : string)
  (t : Z) : ServiceB.Response :=
  {| ServiceB.ServiceAMessage := ServiceB.sa_Message upstream;
     ServiceB.ServiceBMessage := "Hello from Service B!";
     ServiceB.RequestID := id;
     ServiceB.Timestamp := t |}.

(** A response carries an identifier when the header sent with the status
    line holds it and every JSON body holds it as [request_id]. *)
Definition carries (w : World) (id : string) : Prop :=
  sentHeader w "X-Request-ID" = id
  /\ forall c, c ∈ body (rw w) -> is_json c = true ->
               json_field "request_id" c = Some (JStr id).

(** A response that holds the identifier in its JSON body and sends no
    [X-Request-ID] header, and one that holds no identifier at all. *)
Definition carries_in_body_only (w : World) (id : string) : Prop :=
  sentHeader w "X-Request-ID" = ""
  /\ forall c, c ∈ body (rw w) ->
               json_field "request_id" c = Some (JStr id).

Definition carries_nothing (w : World) : Prop :=
  sentHeader w "X-Request-ID" = ""
  /\ forall c, c ∈ body (rw w) -> is_json c = false.

(** The payload of a health report. *)
Definition health_payload (c : Chunk) (id timestamp port : string) : Prop :=
  json_field "status" c = Some (JStr "healthy")
  /\ json_field "timestamp" c = Some (JStr timestamp)
  /\ json_field "request_id" c = Some (JStr id)
  /\ json_field "server_port" c = Some (JStr port).

(** The payload of a combined response. *)
Definition combined_payload (c : Chunk) (upstream_message id : string)
  (t : Z) : Prop :=
  json_field "service_a_message" c = Some (JStr upstream_message)
  /\ json_field "service_b_message" c = Some (JStr "Hello from Service B!")
  /\ json_field "request_id" c = Some (JStr id)
  /\ json_field "timestamp" c = Some (JTime t).

Definition with_header (i : Inbound) (h : http.Header) : Inbound :=
  {| in_method := in_method i; in_path := in_path i; in_header := h;
     in_addr := in_addr i |}.

Definition with_AuthKey (c : ServiceA.Config) (key : string)
  : ServiceA.Config :=
  {| ServiceA.Port := ServiceA.Port c; ServiceA.LogLevel := ServiceA.LogLevel c;
     ServiceA.AuthKey := key |}.

Definition with_upstream (c : ServiceB.Config) (url key : string)
  : ServiceB.Config :=
  {| ServiceB.Port := ServiceB.Port c; ServiceB.LogLevel := ServiceB.LogLevel c;
     ServiceB.ServiceAURL := url; ServiceB.ServiceAAuthKey := key |}.

(** ** Sample inputs *)

Definition world0 : World :=
  {| rw := newResponseWriter; logs := []; outbound := [];
     n_uuid := 0; n_now := 0; n_write := 0 |}.

Definition sample_greeting : ServiceB.ServiceAResponse :=
  {| ServiceB.sa_Message := "Hello from Service A!";
     ServiceB.sa_RequestID := "id-upstream";
     ServiceB.sa_Timestamp := 1700000000 |}.

(** An upstream that answers 200 with a well-formed greeting. *)
Definition env_up : Env ServiceB.ServiceAResponse :=
  {| uuids := fun n => "id-" +:+ itoa (Z.of_nat n);
     clock := fun n => 1700000000 + Z.of_nat n;
     rfc3339 := itoa;
     url_error := fun _ => None;
     do_result := fun _ =>
       DoResp {| StatusCode := 200; Body := BodyOk "{greeting}" |};
     unmarshal := fun _ => inr sample_greeting;
     write_error := fun _ => None |}.

(** An upstream that cannot be reached. *)
Definition env_down : Env ServiceB.ServiceAResponse :=
  {| uuids := fun n => "id-" +:+ itoa (Z.of_nat n);
     clock := fun n => 1700000000 + Z.of_nat n;
     rfc3339 := itoa;
     url_error := fun _ => None;
     do_result := fun _ => DoErr "dial tcp: connection refused";
     unmarshal := fun _ => inl "unexpected end of JSON input";
     write_error := fun _ => None |}.

Definition no_environment : string -> string := fun _ => "".

Definition serverA : ServiceA.Server :=
  ServiceA.NewServer (ServiceA.mainConfig no_environment).

Definition serverB : ServiceB.Server :=
  ServiceB.NewServer (ServiceB.mainConfig no_environment).

(** Service A configured with an empty secret, which [main] never does. *)
Definition serverA_empty_secret : ServiceA.Server :=
  ServiceA.NewServer
    (with_AuthKey (ServiceA.mainConfig no_environment) "").

Definition GET (path : string) (h : http.Header) : Inbound :=
  {| in_method := "GET"; in_path := path; in_header := h;
     in_addr := "10.0.0.7:51234" |}.

Definition greet_good : Inbound :=
  GET "/greet" {[ "X-Auth-Key" := ["default-secret-key"] ]}.

Definition greet_bad : Inbound :=
  GET "/greet" {[ "X-Auth-Key" := ["guess"] ]}.

Definition greet_bare : Inbound := GET "/greet" ∅.

Definition process_request : Inbound := GET "/process" ∅.

Definition health_request : Inbound := GET "/health" ∅.

(** The string attribute of a log record. *)
Fixpoint attr_string (key : string) (a : list Attr) : option string :=
  match a with
  | [] => None
  | AString k v :: rest =>
      if String.eqb k key then Some v else attr_string key rest
  | _ :: rest => attr_string key rest
  end.

Definition logged_with (id : string) (rec : LogRecord) : Prop :=
  attr_string "request_id" (attrs rec) = Some id.

(** The records a step adds to the log all name the identifier [id]. *)
Definition logs_name (id : string) (w w1 : World) : Prop :=
  exists new, logs w1 = logs w ++ new /\ Forall (logged_with id) new.

(** One identifier is drawn while a request is served, and every record
    logged meanwhile names it. *)
Definition one_identifier (id : string) (w w1 : World) : Prop :=
  n_uuid w1 = S (n_uuid w) /\ logs_name id w w1.

(** What the response writer takes of a chunk written as the [n]-th
    write, and what it takes when a failed encoding is followed by the
    plain-text 500 of [http.Error]. *)
Definition delivered {payload} (E : Env payload) (n : nat) (c : Chunk)
  : list Chunk :=
  match write_error E n with
  | None => [c]
  | Some _ => []
  end.

Definition delivered_or_500 {payload} (E : Env payload) (n : nat) (c : Chunk)
  : list Chunk :=
  match write_error E n with
  | None => [c]
  | Some _ => delivered E (S n) (Text ("Internal Server Error" +:+ newline))
  end.

(** The world as the server presents it to a handler: a new response
    writer, everything else as it was. *)
Definition fresh (w : World) : World :=
  set_rw (fun _ => newResponseWriter) w.

(** The part of the world a step leaves alone when it only draws an
    identifier and logs. *)
Definition untouched (w w1 : World) : Prop :=
  rw w1 = rw w /\ outbound w1 = outbound w
  /\ n_now w1 = n_now w /\ n_write w1 = n_write w.

(** Unless the write fails, one body is written, and it is JSON. *)
Definition answers_json {payload} (E : Env payload) (w w1 : World) : Prop :=
  write_error E (n_write w) = None ->
  exists c, body (rw w1) = [c] /\ is_json c = true.

(** ** Vocabulary of the further properties *)

Fixpoint attr_bool (key : string) (a : list Attr) : option bool :=
  match a with
  | [] => None
  | ABool k v :: rest =>
      if String.eqb k key then Some v else attr_bool key rest
  | _ :: rest => attr_bool key rest
  end.

(** The records logged between two worlds, and their messages. *)
Definition logged_since (w w1 : World) : list LogRecord :=
  drop (length (logs w)) (logs w1).

Definition messages_since (w w1 : World) : list string :=
  List.map msg (logged_since w w1).

(** A key as [maskAuthKey] prints the long ones. *)
Definition masked (a b c d : ascii) : string :=
  String a (String b ("****" +:+ String c (String d ""))).

Definition with_LogLevel (c : ServiceA.Config) (lvl : Z) : ServiceA.Config :=
  {| ServiceA.Port := ServiceA.Port c; ServiceA.LogLevel := lvl;
     ServiceA.AuthKey := ServiceA.AuthKey c |}.

Definition with_LogLevelB (c : ServiceB.Config) (lvl : Z) : ServiceB.Config :=
  {| ServiceB.Port := ServiceB.Port c; ServiceB.LogLevel := lvl;
     ServiceB.ServiceAURL := ServiceB.ServiceAURL c;
     ServiceB.ServiceAAuthKey := ServiceB.ServiceAAuthKey c |}.



(** The call to Service A succeeds: the URL parses, the answer is 200,
    its body is read and decodes. *)
Definition call_succeeds (E : Env ServiceB.ServiceAResponse)
  (req : OutRequest) (data : string)
  (upstream : ServiceB.ServiceAResponse) : Prop :=
  url_error E (out_url req) = None
  /\ do_result E req = DoResp {| StatusCode := 200; Body := BodyOk data |}
  /\ unmarshal E data = inr upstream.

(** Two worlds that differ in the log only. *)
Definition same_but_logs (w w' : World) : Prop :=
  rw w' = rw w /\ outbound w' = outbound w /\ n_uuid w' = n_uuid w
  /\ n_now w' = n_now w /\ n_write w' = n_write w.

(** The upstream of [env_up] behind a connection to the client on which
    every write fails. *)
Definition env_broken_pipe : Env ServiceB.ServiceAResponse :=
  {| uuids := uuids env_up;
     clock := clock env_up;
     rfc3339 := rfc3339 env_up;
     url_error := url_error env_up;
     do_result := do_result env_up;
     unmarshal := unmarshal env_up;
     write_error := fun _ => Some "write: broken pipe" |}.

(** A request to [/greet] with another key. *)
Definition greet_other : Inbound :=
  GET "/greet" {[ "X-Auth-Key" := ["another-secret"] ]}.

(** The headers of [greet_good] with an identifier chosen by the client. *)
Definition traced_header : http.Header :=
  http.Set_ (in_header greet_good) "X-Request-ID" "chosen-by-the-client".

(** The servers of [main] with a logger that drops every record. *)
Definition serverA_quiet : ServiceA.Server :=
  {| ServiceA.config := ServiceA.mainConfig no_environment;
     ServiceA.logger := LevelError + 4 |}.

Definition serverB_quiet : ServiceB.Server :=
  {| ServiceB.config := ServiceB.mainConfig no_environment;
     ServiceB.logger := LevelError + 4 |}.

(** * Properties *)

Arguments http.Set_ : simpl never.
Arguments http.Get : simpl never.
Arguments subtle.ConstantTimeCompare : simpl never.
Arguments bytes : simpl never.
Arguments ServiceA.maskAuthKey : simpl never.
Arguments ServiceB.maskAuthKey : simpl never.
Arguments itoa : simpl never.
Arguments healthStatus : simpl never.
Arguments ServiceB.greetRequest : simpl never.

(** Two different header names, by computation. *)
Ltac other_key := vm_compute; discriminate.

(** Closes [logs_name] and its like once the run has been computed: the
    new records are the conditional singletons appended to the old log. *)
Ltac log_records :=
  eexists; split;
  [ cbn [logs]; rewrite <- ?app_assoc; reflexivity
  | repeat (apply Forall_app; split);
    match goal with
    | |- Forall _ (if ?c then _ else _) => destruct c
    end; repeat constructor ].

(** ** The model on concrete inputs *)

Example canonical_request_id :
  textproto.CanonicalMIMEHeaderKey "X-Request-ID" = "X-Request-Id".
Proof. reflexivity. Qed.

Example canonical_lowercase :
  textproto.CanonicalMIMEHeaderKey "x-auth-key" = "X-Auth-Key".
Proof. reflexivity. Qed.

Example canonical_leaves_spaces :
  textproto.CanonicalMIMEHeaderKey "x auth" = "x auth".
Proof. reflexivity. Qed.

Example compare_equal :
  subtle.ConstantTimeCompare (bytes "abc") (bytes "abc") = 1.
Proof. reflexivity. Qed.

Example compare_differ :
  subtle.ConstantTimeCompare (bytes "abc") (bytes "abd") = 0.
Proof. reflexivity. Qed.

Example compare_lengths :
  subtle.ConstantTimeCompare (bytes "abc") (bytes "abcd") = 0.
Proof. reflexivity. Qed.

Example mask_secret :
  ServiceA.maskAuthKey "service-a-secret-key" = "se****ey".
Proof. reflexivity. Qed.

Example mask_five : ServiceB.maskAuthKey "abcde" = "ab****de".
Proof. reflexivity. Qed.

Example mask_four : ServiceB.maskAuthKey "abcd" = "****".
Proof. reflexivity. Qed.

Example trim_blanks : textproto.TrimString "  k " = "k".
Proof. reflexivity. Qed.

Example trim_inner_blank : textproto.TrimString "a b" = "a b".
Proof. reflexivity. Qed.

Example line_feed_not_sendable :
  http.ValidHeaderFieldValue (String (ascii_of_nat 10) "key") = false.
Proof. reflexivity. Qed.

Example default_key_sendable :
  http.ValidHeaderFieldValue "default-secret-key" = true.
Proof. reflexivity. Qed.

Example greet_good_run :
  let res := ServiceA.ServeHTTP env_up serverA greet_good world0 in
  res.1 = Ret tt
  /\ status res.2 = Some 200
  /\ sentHeader res.2 "x-request-id" = "id-0"
  /\ body (rw res.2)
     = [JObject [("message", JStr "Hello from Service A!");
                 ("request_id", JStr "id-0");
                 ("timestamp", JTime 1700000000)]].
Proof. repeat split. Qed.

Example greet_bad_run :
  let res := ServiceA.ServeHTTP env_up serverA greet_bad world0 in
  res.1 = Ret tt
  /\ status res.2 = Some 401
  /\ body (rw res.2) = [Text ("Unauthorized" +:+ newline)]
  /\ List.map msg (logs res.2)
     = ["Authentication attempt"; "Authentication failed"].
Proof. repeat split. Qed.

Example process_down_run :
  let res := ServiceB.ServeHTTP env_down serverB process_request world0 in
  res.1 = Panic nil_assertion
  /\ wrote (rw res.2) = None
  /\ List.map msg (logs res.2)
     = ["Processing service interaction request"; "Calling Service A"].
Proof. repeat split. Qed.

(** ** crypto/subtle: the comparison decides byte equality *)

Section ByteFacts.

Lemma is_byte_log2 b : is_byte b <-> 0 <= b /\ Z.log2 b < 8.
Proof.
  unfold is_byte. destruct (Z.eq_dec b 0) as [->|Hb].
  - cbn. lia.
  - split; intros [H0 H1]; split; try lia.
    + apply Z.log2_lt_pow2; lia.
    + apply Z.log2_lt_pow2; lia.
Qed.

Lemma is_byte_lxor a b : is_byte a -> is_byte b -> is_byte (Z.lxor a b).
Proof.
  rewrite !is_byte_log2. intros [Ha La] [Hb Lb]. split.
  - apply Z.lxor_nonneg. lia.
  - pose proof (Z.log2_lxor a b Ha Hb). lia.
Qed.

Lemma is_byte_lor a b : is_byte a -> is_byte b -> is_byte (Z.lor a b).
Proof.
  rewrite !is_byte_log2. intros [Ha La] [Hb Lb]. split.
  - apply Z.lor_nonneg. lia.
  - rewrite Z.log2_lor by assumption. lia.
Qed.

Lemma byte_of_ascii_is_byte c : is_byte (byte_of_ascii c).
Proof.
  unfold is_byte, byte_of_ascii. pose proof (N_ascii_bounded c).
  change (2 ^ 8) with 256. lia.
Qed.

Lemma byte_of_ascii_inj c d : byte_of_ascii c = byte_of_ascii d -> c = d.
Proof.
  unfold byte_of_ascii. intros H. apply N2Z.inj in H.
  rewrite <- (ascii_N_embedding c), <- (ascii_N_embedding d).
  now rewrite H.
Qed.

Lemma bytes_is_byte s : Forall is_byte (bytes s).
Proof.
  unfold bytes. induction (list_ascii_of_string s) as [|c l IH]; cbn.
  - constructor.
  - constructor; [apply byte_of_ascii_is_byte | exact IH].
Qed.

Lemma bytes_inj a b : bytes a = bytes b -> a = b.
Proof.
  unfold bytes. intros H.
  rewrite <- (string_of_list_ascii_of_string a).
  rewrite <- (string_of_list_ascii_of_string b).
  f_equal. revert H.
  generalize (list_ascii_of_string b).
  induction (list_ascii_of_string a) as [|c l IH]; intros [|d l'] H;
    cbn in H; try discriminate; [reflexivity|].
  injection H as Hc Hl. f_equal; [now apply byte_of_ascii_inj | now apply IH].
Qed.

End ByteFacts.

Section Subtle.

Import subtle.

Lemma accumulate_is_byte x : forall y v,
  is_byte v -> Forall is_byte x -> Forall is_byte y ->
  is_byte (accumulate v x y).
Proof.
  induction x as [|a x IH]; intros [|b y] v Hv Hx Hy; cbn; try assumption.
  inversion Hx; inversion Hy; subst.
  apply IH; try assumption.
  apply is_byte_lor; [assumption | now apply is_byte_lxor].
Qed.

Lemma accumulate_zero x : forall y v,
  length x = length y ->
  (accumulate v x y = 0 <-> v = 0 /\ x = y).
Proof.
  induction x as [|a x IH]; intros [|b y] v Hlen; cbn in *; try discriminate.
  - intuition.
  - injection Hlen as Hlen. rewrite (IH y _ Hlen), Z.lor_eq_0_iff. split.
    + intros [[Hv Hab] Hxy]. apply Z.lxor_eq in Hab. subst. auto.
    + intros [Hv Habxy]. injection Habxy as -> ->.
      rewrite Z.lxor_nilpotent. auto.
Qed.

Lemma ConstantTimeByteEq_zero v :
  is_byte v -> (ConstantTimeByteEq v 0 = 1 <-> v = 0).
Proof.
  unfold is_byte, ConstantTimeByteEq. change (2 ^ 8) with 256.
  intros Hv. rewrite Z.lxor_0_r, Z.shiftr_div_pow2 by lia.
  destruct (Z.eq_dec v 0) as [->|Hne].
  - split; [reflexivity | intros _; reflexivity].
  - split; [|intros; contradiction].
    rewrite Z.mod_small by lia.
    rewrite Z.div_small by lia. discriminate.
Qed.

(** The comparison returns 1 exactly on equal strings. *)
Lemma ConstantTimeCompare_spec a b :
  ConstantTimeCompare (bytes a) (bytes b) = 1 <-> a = b.
Proof.
  unfold ConstantTimeCompare.
  destruct (Nat.eqb_spec (length (bytes a)) (length (bytes b))) as [Hlen|Hlen];
    cbn [negb].
  - rewrite ConstantTimeByteEq_zero.
    + rewrite (accumulate_zero _ _ 0 Hlen). split.
      * intros [_ H]. now apply bytes_inj.
      * intros ->. auto.
    + apply accumulate_is_byte; try apply bytes_is_byte.
      unfold is_byte. lia.
  - split; [discriminate | intros ->; contradiction].
Qed.

Lemma compare_eqb_true a :
  (ConstantTimeCompare (bytes a) (bytes a) =? 1) = true.
Proof. apply Z.eqb_eq. now apply ConstantTimeCompare_spec. Qed.

Lemma compare_eqb_false a b :
  a <> b -> (ConstantTimeCompare (bytes a) (bytes b) =? 1) = false.
Proof.
  intros H. apply Z.eqb_neq. intros Heq. apply H.
  now apply ConstantTimeCompare_spec.
Qed.

End Subtle.

(** ** Slices of a string *)

Section Slices.

Lemma append_String c (x y : string) : String c x +:+ y = String c (x +:+ y).
Proof. reflexivity. Qed.

Lemma substring_split s : forall n m k,
  substring n (m + k) s = substring n m s +:+ substring (n + m) k s.
Proof.
  induction s as [|c s IH]; intros n m k.
  - destruct n, m, k; reflexivity.
  - destruct n as [|n].
    + destruct m as [|m]; [reflexivity|].
      simpl. rewrite append_String. f_equal. apply (IH 0%nat).
    + simpl. apply IH.
Qed.

Lemma substring_all s : substring 0 (String.length s) s = s.
Proof. induction s as [|c s IH]; cbn; [reflexivity | now rewrite IH]. Qed.

Lemma substring_length s : forall n m,
  (n + m <= String.length s)%nat -> String.length (substring n m s) = m.
Proof.
  induction s as [|c s IH]; intros n m H; cbn in H.
  - destruct n, m; cbn; lia.
  - destruct n as [|n].
    + destruct m as [|m]; [reflexivity|]. cbn. rewrite (IH 0%nat); lia.
    + cbn. apply IH. lia.
Qed.

(** A string longer than four bytes is its first two bytes, a middle, and
    its last two bytes, where first and last are the slices the masking
    function takes. *)
Lemma slice_three_parts key :
  (4 < len key)%nat ->
  key = slice key 0 2 +:+ substring 2 (len key - 4) key
        +:+ slice key (len key - 2) (len key)
  /\ len (slice key 0 2) = 2%nat
  /\ len (slice key (len key - 2) (len key)) = 2%nat.
Proof.
  unfold len, slice. intros H.
  replace (String.length key - (String.length key - 2))%nat with 2%nat by lia.
  split; [|split].
  - rewrite <- (substring_all key) at 1.
    replace (String.length key) with (2 + ((String.length key - 4) + 2))%nat
      at 1 by lia.
    rewrite substring_split, substring_split. cbn [Nat.sub].
    do 3 f_equal. lia.
  - apply substring_length. lia.
  - apply substring_length. lia.
Qed.

End Slices.

(** ** Masking of credentials in the log *)

(** C6. Both services' [maskAuthKey] agree.  On a key of at most four bytes
    the result is the fixed four-character mask; a longer key is split as
    first two bytes, middle, last two bytes, and the result keeps the
    first and the last part around the same fixed mask, whatever the
    middle holds. *)
Theorem maskAuthKey_spec (key : string) :
  ServiceB.maskAuthKey key = ServiceA.maskAuthKey key
  /\ len "****" = 4%nat
  /\ ((len key <= 4)%nat -> ServiceA.maskAuthKey key = "****")
  /\ ((4 < len key)%nat ->
      exists first middle last,
        key = first +:+ middle +:+ last
        /\ len first = 2%nat /\ len last = 2%nat
        /\ ServiceA.maskAuthKey key = first +:+ "****" +:+ last).
Proof.
  split; [reflexivity|]. split; [reflexivity|].
  unfold ServiceA.maskAuthKey. split.
  - intros H. destruct (Nat.ltb_spec 4 (len key)) as [Hlt|_]; [lia | reflexivity].
  - intros H. destruct (Nat.ltb_spec 4 (len key)) as [_|Hle]; [|lia].
    destruct (slice_three_parts key H) as (Hkey & Hfirst & Hlast).
    exists (slice key 0 2), (substring 2 (len key - 4) key),
      (slice key (len key - 2) (len key)).
    auto.
Qed.

Lemma maskAuthKey_spec_witness :
  ServiceA.maskAuthKey "key" = "****"
  /\ exists first middle last,
       "service-a-secret-key" = first +:+ middle +:+ last
       /\ len first = 2%nat /\ len last = 2%nat
       /\ ServiceA.maskAuthKey "service-a-secret-key"
          = first +:+ "****" +:+ last.
Proof.
  split.
  - apply (maskAuthKey_spec "key"). cbn. lia.
  - apply (maskAuthKey_spec "service-a-secret-key"). cbn. lia.
Defined.

(** ** Headers *)

Section HeaderFacts.

Lemma Get_Set_eq (h : http.Header) key value :
  http.Get (http.Set_ h key value) key = value.
Proof. unfold http.Get, http.Set_. now rewrite lookup_insert_eq. Qed.

Lemma Get_Set_ne (h : http.Header) key key' value :
  textproto.CanonicalMIMEHeaderKey key
  <> textproto.CanonicalMIMEHeaderKey key' ->
  http.Get (http.Set_ h key value) key' = http.Get h key'.
Proof.
  intros H. unfold http.Get, http.Set_. now rewrite lookup_insert_ne.
Qed.

Lemma Get_empty key : http.Get ∅ key = "".
Proof. unfold http.Get. now rewrite lookup_empty. Qed.

(** A header that is absent reads as the empty string, and so does a
    header sent with an empty value. *)
Lemma Get_missing (h : http.Header) key :
  h !! textproto.CanonicalMIMEHeaderKey key = None -> http.Get h key = "".
Proof. unfold http.Get. now intros ->. Qed.

Lemma Get_empty_value (h : http.Header) key :
  h !! textproto.CanonicalMIMEHeaderKey key = Some [""] -> http.Get h key = "".
Proof. unfold http.Get. now intros ->. Qed.

End HeaderFacts.

(** ** Routing *)

Section Routing.

Context {payload : Type} (E : Env payload).

Lemma serve_first pattern h rest i w :
  in_path i = pattern ->
  serve E ((pattern, h) :: rest) i w = h (readRequest i) (fresh w).
Proof.
  intros H. unfold serve, serveMux, bind, modify, route, fresh.
  cbn [Path readRequest]. now rewrite H, String.eqb_refl.
Qed.

Lemma serve_second pattern0 h0 pattern h rest i w :
  in_path i = pattern -> pattern0 <> pattern ->
  serve E ((pattern0, h0) :: (pattern, h) :: rest) i w
  = h (readRequest i) (fresh w).
Proof.
  intros H Hne. unfold serve, serveMux, bind, modify, route, fresh.
  cbn [Path readRequest]. rewrite H, String.eqb_refl.
  apply String.eqb_neq in Hne. now rewrite Hne.
Qed.

End Routing.

(** ** The response writer on a status that is not known in advance *)

Section Writer.

Context {payload : Type} (E : Env payload).

Lemma WriteHeader_final code w :
  wrote (rw w) = None -> 200 <= code <= 999 ->
  WriteHeader code w = (Ret tt, set_rw (commit code) w).
Proof.
  intros Hw Hc. unfold WriteHeader. rewrite Hw.
  replace (code <? 100) with false by (symmetry; apply Z.ltb_ge; lia).
  replace (999 <? code) with false by (symmetry; apply Z.ltb_ge; lia).
  replace (code <=? 199) with false by (symmetry; apply Z.leb_gt; lia).
  reflexivity.
Qed.

Lemma bodyAllowed_final code :
  200 <= code <= 999 -> code <> 204 -> code <> 304 ->
  bodyAllowedForStatus code = true.
Proof.
  intros Hc H1 H2. unfold bodyAllowedForStatus.
  replace (code <=? 199) with false by (symmetry; apply Z.leb_gt; lia).
  apply Z.eqb_neq in H1, H2. rewrite H1, H2. now rewrite andb_false_r.
Qed.

Lemma Write_committed c w code h :
  wrote (rw w) = Some (code, h) -> bodyAllowedForStatus code = true ->
  Write E c w
  = (Ret (write_error E (n_write w)),
     tick_write (set_rw (deliver (write_error E (n_write w)) c) w)).
Proof.
  intros Hw Hb. unfold Write, bind, WriteHeader.
  rewrite Hw. cbv beta iota. now rewrite Hw, Hb.
Qed.

End Writer.

(** ** Service A, handler by handler *)

Section ServiceA_steps.

Context {payload : Type} (E : Env payload).
Import ServiceA.

(** A matching credential: the middleware draws the identifier, logs, and
    hands the request, now carrying the identifier, to the wrapped
    handler; the response writer is as it found it. *)
Lemma authMiddleware_accept s r w :
  http.Get (ReqHeader r) "X-Auth-Key" = AuthKey (config s) ->
  exists w1,
    (forall next, authMiddleware E s next r w
                  = next (withRequestID r (uuids E (n_uuid w))) w1)
    /\ untouched w w1 /\ n_uuid w1 = S (n_uuid w)
    /\ logs_name (uuids E (n_uuid w)) w w1.
Proof.
  intros Hk. destruct w as [[h wr b] l o nu nn nw].
  eexists. split; [|split; [|split]].
  - intros next. unfold authMiddleware. cbn.
    rewrite Hk, compare_eqb_true. cbn. reflexivity.
  - repeat split.
  - reflexivity.
  - log_records.
Qed.

(** Any other credential: the answer is written by the middleware alone. *)
Lemma authMiddleware_reject s r w :
  http.Get (ReqHeader r) "X-Auth-Key" <> AuthKey (config s) ->
  wrote (rw w) = None ->
  exists w1,
    (forall next, authMiddleware E s next r w = (Ret tt, w1))
    /\ status w1 = Some 401
    /\ sentHeader w1 "X-Request-ID" = http.Get (header (rw w)) "X-Request-ID"
    /\ body (rw w1)
       = body (rw w) ++
         match write_error E (n_write w) with
         | None => [Text ("Unauthorized" +:+ newline)]
         | Some _ => []
         end
    /\ outbound w1 = outbound w /\ n_now w1 = n_now w
    /\ n_uuid w1 = S (n_uuid w)
    /\ logs_name (uuids E (n_uuid w)) w w1.
Proof.
  intros Hk Hw.
  destruct w as [[h wr b] l o nu nn nw]. cbn in *. subst wr.
  eexists. split.
  - intros next. unfold authMiddleware. cbn.
    rewrite (compare_eqb_false _ _ Hk). cbn. reflexivity.
  - unfold status, sentHeader. cbn.
    rewrite !Get_Set_ne by other_key.
    repeat split. log_records.
Qed.

Lemma handleGreet_run s r w id :
  context.Value (Ctx r) (context.KString "request_id")
  = Some (context.VString id) ->
  wrote (rw w) = None ->
  exists w1,
    handleGreet E s r w = (Ret tt, w1)
    /\ status w1 = Some 200
    /\ sentHeader w1 "X-Request-ID" = id
    /\ sentHeader w1 "Content-Type" = "application/json"
    /\ body (rw w1)
       = body (rw w) ++
         match write_error E (n_write w) with
         | None =>
             [encode {| Message := "Hello from Service A!"; RequestID := id;
                        Timestamp := clock E (n_now w) |}]
         | Some _ =>
             match write_error E (S (n_write w)) with
             | None => [Text ("Internal Server Error" +:+ newline)]
             | Some _ => []
             end
         end
    /\ outbound w1 = outbound w /\ n_uuid w1 = n_uuid w
    /\ logs_name id w w1.
Proof.
  intros Hid Hw.
  destruct w as [[h wr b] l o nu nn nw]. cbn in *. subst wr.
  unfold handleGreet. rewrite Hid. cbn.
  destruct (write_error E nw) eqn:Hwr; cbn.
  - eexists. split; [reflexivity|].
    unfold status, sentHeader. cbn.
    rewrite Get_Set_eq, Get_Set_ne, Get_Set_eq by other_key.
    rewrite <- app_assoc. repeat split. log_records.
  - eexists. split; [reflexivity|].
    unfold status, sentHeader. cbn.
    rewrite Get_Set_eq, Get_Set_ne, Get_Set_eq by other_key.
    repeat split. log_records.
Qed.

Lemma handleHealth_run s r w :
  wrote (rw w) = None ->
  exists w1,
    handleHealth E s r w = (Ret tt, w1)
    /\ status w1 = Some 200
    /\ sentHeader w1 "X-Request-ID" = http.Get (header (rw w)) "X-Request-ID"
    /\ body (rw w1)
       = body (rw w) ++
         match write_error E (n_write w) with
         | None =>
             [JMap (healthStatus (rfc3339 E (clock E (S (n_now w))))
                      (uuids E (n_uuid w)) (Port (config s)))]
         | Some _ => []
         end
    /\ outbound w1 = outbound w /\ n_uuid w1 = S (n_uuid w)
    /\ logs_name (uuids E (n_uuid w)) w w1.
Proof.
  intros Hw.
  destruct w as [[h wr b] l o nu nn nw]. cbn in *. subst wr.
  unfold handleHealth. cbn. eexists. split; [reflexivity|].
  unfold status, sentHeader. cbn.
  rewrite Get_Set_ne by other_key.
  repeat split. log_records.
Qed.

(** The health handler reads the port and the log level of the
    configuration and the address, method and path of the request, and
    nothing else of either. *)
Lemma handleHealth_reads s s' r r' :
  Port (config s) = Port (config s') -> logger s = logger s' ->
  RemoteAddr r = RemoteAddr r' -> Method r = Method r' -> Path r = Path r' ->
  handleHealth E s r = handleHealth E s' r'.
Proof.
  intros Hp Hl Ha Hm Hq. unfold handleHealth.
  now rewrite Hp, Hl, Ha, Hm, Hq.
Qed.

Lemma ServeHTTP_greet s i w :
  in_path i = "/greet" ->
  ServeHTTP E s i w
  = authMiddleware E s (handleGreet E s) (readRequest i) (fresh w).
Proof. intros H. now apply serve_first. Qed.

Lemma ServeHTTP_health s i w :
  in_path i = "/health" ->
  ServeHTTP E s i w = handleHealth E s (readRequest i) (fresh w).
Proof. intros H. now apply serve_second. Qed.

End ServiceA_steps.

(** ** Service B, handler by handler *)

Section ServiceB_steps.

Context (E : Env ServiceB.ServiceAResponse).
Import ServiceB.

(** Without a string bound under ["request_id"] in the request's context,
    [handleError] stops at its first statement. *)
Lemma handleError_panics s r err logMessage statusCode w :
  context.Value (Ctx r) (context.KString "request_id") = None ->
  handleError E s r err logMessage statusCode w = (Panic nil_assertion, w).
Proof. intros H. unfold handleError. now rewrite H. Qed.

(** With the identifier bound in the request's context, as Service A's
    middleware binds it, [handleError] would log and answer with the
    mapped status and the log message as plain text. *)
Lemma handleError_intended s r err logMessage statusCode w id :
  context.Value (Ctx r) (context.KString "request_id")
  = Some (context.VString id) ->
  wrote (rw w) = None ->
  200 <= statusCode <= 999 -> statusCode <> 204 -> statusCode <> 304 ->
  exists w1,
    handleError E s r err logMessage statusCode w = (Ret tt, w1)
    /\ status w1 = Some statusCode
    /\ body (rw w1)
       = body (rw w) ++ delivered E (n_write w) (Text (logMessage +:+ newline)).
Proof.
  intros Hid Hw Hc H1 H2.
  destruct w as [[h wr b] l o nu nn nw]. cbn in *. subst wr.
  unfold handleError. rewrite Hid. cbn.
  unfold http_Error. cbn. unfold bind at 1.
  rewrite WriteHeader_final by (cbn; trivial). cbn. unfold bind at 1.
  erewrite Write_committed;
    [| reflexivity | now apply bodyAllowed_final].
  cbn. eexists. split; [reflexivity|]. split; reflexivity.
Qed.

Lemma handleProcess_error s r w logMessage statusCode :
  context.Value (Ctx r) (context.KString "request_id") = None ->
  OutboundCallError E
    (greetRequest s (Ctx (withRequestID r (uuids E (n_uuid w))))
       (uuids E (n_uuid w)))
    logMessage statusCode ->
  exists w1,
    handleProcess E s r w = (Panic nil_assertion, w1)
    /\ rw w1 = rw w /\ n_uuid w1 = S (n_uuid w)
    /\ exists new,
         logs w1 = logs w ++ new
         /\ Forall (fun rec => level rec = LevelInfo) new.
Proof.
  intros Hctx Herr.
  destruct w as [[h wr b] l o nu nn nw]. cbn in *.
  inversion Herr as [e Hurl | e Hurl Hdo | code bd Hurl Hdo Hcode
                    | e Hurl Hdo | data e Hurl Hdo Hun]; subst;
    unfold greetRequest in Hurl; cbn [out_url] in Hurl;
    unfold handleProcess; cbn; rewrite Hurl; cbn;
    rewrite ?Hdo; cbn.
  3: apply Z.eqb_neq in Hcode; unfold http.StatusOK; rewrite Hcode; cbn.
  5: rewrite Hun.
  all: rewrite handleError_panics by assumption.
  all: eexists; split; [reflexivity|]; cbn; repeat split.
  all: log_records.
Qed.

Lemma handleProcess_success s r w data upstream :
  let id := uuids E (n_uuid w) in
  let req := greetRequest s (Ctx (withRequestID r id)) id in
  url_error E (out_url req) = None ->
  do_result E req = DoResp {| StatusCode := 200; Body := BodyOk data |} ->
  unmarshal E data = inr upstream ->
  wrote (rw w) = None ->
  exists w1,
    handleProcess E s r w = (Ret tt, w1)
    /\ status w1 = Some 200
    /\ sentHeader w1 "X-Request-ID" = id
    /\ sentHeader w1 "Content-Type" = "application/json"
    /\ body (rw w1)
       = body (rw w) ++
         match write_error E (n_write w) with
         | None => [encode (combined upstream id (clock E (S (n_now w))))]
         | Some _ =>
             match write_error E (S (n_write w)) with
             | None => [Text ("Internal Server Error" +:+ newline)]
             | Some _ => []
             end
         end
    /\ outbound w1 = outbound w ++ [req] /\ n_uuid w1 = S (n_uuid w)
    /\ logs_name id w w1.
Proof.
  intros id req Hurl Hdo Hun Hw. subst id req.
  destruct w as [[h wr b] l o nu nn nw]. cbn in *. subst wr.
  unfold greetRequest in Hurl. cbn [out_url] in Hurl.
  unfold handleProcess. cbn. rewrite Hurl. cbn. rewrite Hdo. cbn.
  rewrite Hun. cbn.
  destruct (write_error E nw) eqn:Hwr; cbn.
  - eexists. split; [reflexivity|].
    unfold status, sentHeader. cbn.
    rewrite Get_Set_eq, Get_Set_ne, Get_Set_eq by other_key.
    rewrite <- app_assoc. repeat split. log_records.
  - eexists. split; [reflexivity|].
    unfold status, sentHeader. cbn.
    rewrite Get_Set_eq, Get_Set_ne, Get_Set_eq by other_key.
    repeat split. log_records.
Qed.

Lemma handleHealthB_run s r w :
  wrote (rw w) = None ->
  exists w1,
    handleHealth E s r w = (Ret tt, w1)
    /\ status w1 = Some 200
    /\ sentHeader w1 "X-Request-ID" = http.Get (header (rw w)) "X-Request-ID"
    /\ body (rw w1)
       = body (rw w) ++
         match write_error E (n_write w) with
         | None =>
             [JMap (healthStatus (rfc3339 E (clock E (S (n_now w))))
                      (uuids E (n_uuid w)) (Port (config s)))]
         | Some _ => []
         end
    /\ outbound w1 = outbound w /\ n_uuid w1 = S (n_uuid w)
    /\ logs_name (uuids E (n_uuid w)) w w1.
Proof.
  intros Hw.
  destruct w as [[h wr b] l o nu nn nw]. cbn in *. subst wr.
  unfold handleHealth. cbn. eexists. split; [reflexivity|].
  unfold status, sentHeader. cbn.
  rewrite Get_Set_ne by other_key.
  repeat split. log_records.
Qed.

Lemma ServeHTTP_process s i w :
  in_path i = "/process" ->
  ServeHTTP E s i w = handleProcess E s (readRequest i) (fresh w).
Proof. intros H. now apply serve_first. Qed.

Lemma ServeHTTPB_health s i w :
  in_path i = "/health" ->
  ServeHTTP E s i w = handleHealth E s (readRequest i) (fresh w).
Proof. intros H. now apply serve_second. Qed.

End ServiceB_steps.

(** ** A request through the server *)

Section Fresh.

Lemma fresh_rw w : rw (fresh w) = newResponseWriter.
Proof. now destruct w. Qed.

Lemma fresh_counters w :
  n_uuid (fresh w) = n_uuid w /\ n_now (fresh w) = n_now w
  /\ n_write (fresh w) = n_write w /\ outbound (fresh w) = outbound w
  /\ logs (fresh w) = logs w.
Proof. now destruct w. Qed.

Lemma logs_name_trans id w w1 w2 :
  logs_name id w w1 -> logs_name id w1 w2 -> logs_name id w w2.
Proof.
  intros (new1 & H1 & F1) (new2 & H2 & F2). exists (new1 ++ new2). split.
  - now rewrite H2, H1, app_assoc.
  - apply Forall_app. now split.
Qed.

Lemma logs_name_fresh id w w1 : logs_name id (fresh w) w1 -> logs_name id w w1.
Proof.
  intros (new & H & F). exists new. split; [|exact F].
  rewrite H. now destruct w.
Qed.

Lemma readRequest_no_request_id i :
  context.Value (Ctx (readRequest i)) (context.KString "request_id") = None.
Proof. reflexivity. Qed.

Lemma withRequestID_value r id :
  context.Value (Ctx (withRequestID r id)) (context.KString "request_id")
  = Some (context.VString id).
Proof.
  unfold withRequestID, WithContext, context.WithValue. cbn.
  now destruct (decide _).
Qed.

Lemma mainConfig_AuthKey_nonempty getenv :
  ServiceA.AuthKey (ServiceA.mainConfig getenv) <> "".
Proof.
  unfold ServiceA.mainConfig. cbn.
  destruct (String.eqb_spec (getenv "AUTH_KEY") ""); [discriminate | assumption].
Qed.

Lemma auth_header_missing (h : http.Header) :
  h !! "X-Auth-Key" = None -> http.Get h "X-Auth-Key" = "".
Proof. intros H. now apply Get_missing. Qed.

End Fresh.

Section Served.

Context {payload : Type} (E : Env payload).

Lemma in_delivered n c c' : c' ∈ delivered E n c -> c' = c.
Proof.
  unfold delivered. destruct (write_error E n); intros H.
  - inversion H.
  - now apply list_elem_of_singleton in H.
Qed.

Lemma in_delivered_or_500 n c c' :
  c' ∈ delivered_or_500 E n c -> is_json c' = true -> c' = c.
Proof.
  unfold delivered_or_500. destruct (write_error E n); intros H Hjson.
  - apply in_delivered in H. subst c'. discriminate.
  - now apply list_elem_of_singleton in H.
Qed.

Lemma delivered_ok n c : write_error E n = None -> delivered E n c = [c].
Proof. unfold delivered. now intros ->. Qed.

Lemma delivered_or_500_ok n c :
  write_error E n = None -> delivered_or_500 E n c = [c].
Proof. unfold delivered_or_500. now intros ->. Qed.

(** [/greet] with the matching credential. *)
Lemma served_greet_accepted cfg i w :
  let id := uuids E (n_uuid w) in
  let res := ServiceA.ServeHTTP E (ServiceA.NewServer cfg) i w in
  in_path i = "/greet" ->
  http.Get (in_header i) "X-Auth-Key" = ServiceA.AuthKey cfg ->
  res.1 = Ret tt
  /\ status res.2 = Some 200
  /\ sentHeader res.2 "X-Request-ID" = id
  /\ body (rw res.2)
     = delivered_or_500 E (n_write w)
         (ServiceA.encode
            {| ServiceA.Message := "Hello from Service A!";
               ServiceA.RequestID := id;
               ServiceA.Timestamp := clock E (n_now w) |})
  /\ n_uuid res.2 = S (n_uuid w)
  /\ outbound res.2 = outbound w
  /\ logs_name id w res.2.
Proof.
  intros id res Hpath Hkey. set (s := ServiceA.NewServer cfg) in *.
  destruct (authMiddleware_accept E s (readRequest i) (fresh w) Hkey)
    as (w1 & Hrun & (Hrw & Hout & Hnow & Hnw) & Hid & Hlog).
  destruct (fresh_counters w) as (Hfu & Hfn & Hfw & Hfo & _).
  destruct (handleGreet_run E s (withRequestID (readRequest i)
                                   (uuids E (n_uuid (fresh w)))) w1
              (uuids E (n_uuid (fresh w))) (withRequestID_value _ _))
    as (w2 & Hrun2 & Hst & Hhdr & _ & Hbody & Hout2 & Hid2 & Hlog2).
  { now rewrite Hrw, fresh_rw. }
  subst res. rewrite (ServeHTTP_greet E s i w Hpath), Hrun, Hrun2.
  cbn [fst snd]. rewrite Hfu in Hhdr, Hlog, Hlog2.
  rewrite Hrw, fresh_rw, Hnw, Hnow, Hfu, Hfn, Hfw in Hbody.
  split; [reflexivity|]. do 3 (split; [assumption|]). split; [|split].
  - now rewrite Hid2, Hid, Hfu.
  - now rewrite Hout2, Hout, Hfo.
  - apply logs_name_fresh. now apply (logs_name_trans _ _ w1).
Qed.

(** [/greet] with any other credential, whatever handler is wrapped. *)
Lemma served_greet_rejected s i w :
  let res := ServiceA.ServeHTTP E s i w in
  in_path i = "/greet" ->
  http.Get (in_header i) "X-Auth-Key" <> ServiceA.AuthKey (ServiceA.config s) ->
  res.1 = Ret tt
  /\ status res.2 = Some 401
  /\ sentHeader res.2 "X-Request-ID" = ""
  /\ body (rw res.2)
     = delivered E (n_write w) (Text ("Unauthorized" +:+ newline))
  /\ n_now res.2 = n_now w
  /\ n_uuid res.2 = S (n_uuid w)
  /\ logs_name (uuids E (n_uuid w)) w res.2
  /\ forall next,
       serve E [("/greet", ServiceA.authMiddleware E s next);
                ("/health", ServiceA.handleHealth E s)] i w
       = res.
Proof.
  intros res Hpath Hne.
  destruct (authMiddleware_reject E s (readRequest i) (fresh w) Hne)
    as (w1 & Hrun & Hst & Hhdr & Hbody & _ & Hnow & Hid & Hlog).
  { now rewrite fresh_rw. }
  destruct (fresh_counters w) as (Hfu & Hfn & Hfw & _).
  subst res. rewrite (ServeHTTP_greet E s i w Hpath), Hrun.
  cbn [fst snd]. rewrite fresh_rw in Hhdr, Hbody. rewrite Hfw in Hbody.
  rewrite Hfu in Hlog.
  split; [reflexivity|]. do 3 (split; [assumption|]).
  split; [|split; [|split]].
  - now rewrite Hnow.
  - now rewrite Hid, Hfu.
  - now apply logs_name_fresh.
  - intros next. rewrite (serve_first E _ _ _ i w Hpath). apply Hrun.
Qed.

Lemma served_healthA s i w :
  let res := ServiceA.ServeHTTP E s i w in
  in_path i = "/health" ->
  res.1 = Ret tt
  /\ status res.2 = Some 200
  /\ sentHeader res.2 "X-Request-ID" = ""
  /\ body (rw res.2)
     = delivered E (n_write w)
         (JMap (healthStatus (rfc3339 E (clock E (S (n_now w))))
                  (uuids E (n_uuid w)) (ServiceA.Port (ServiceA.config s))))
  /\ n_uuid res.2 = S (n_uuid w)
  /\ outbound res.2 = outbound w
  /\ logs_name (uuids E (n_uuid w)) w res.2.
Proof.
  intros res Hpath.
  destruct (handleHealth_run E s (readRequest i) (fresh w))
    as (w1 & Hrun & Hst & Hhdr & Hbody & Hout & Hid & Hlog).
  { now rewrite fresh_rw. }
  destruct (fresh_counters w) as (Hfu & Hfn & Hfw & Hfo & _).
  subst res. rewrite (ServeHTTP_health E s i w Hpath), Hrun.
  cbn [fst snd]. rewrite fresh_rw in Hhdr, Hbody.
  rewrite Hfw, Hfn, Hfu in Hbody. rewrite Hfu in Hlog.
  split; [reflexivity|]. do 3 (split; [assumption|]). split; [|split].
  - now rewrite Hid, Hfu.
  - now rewrite Hout, Hfo.
  - now apply logs_name_fresh.
Qed.

End Served.

Section ServedB.

Context (E : Env ServiceB.ServiceAResponse).

Lemma served_process_ok cfg i w data upstream :
  let s := ServiceB.NewServer cfg in
  let id := uuids E (n_uuid w) in
  let req :=
    ServiceB.greetRequest s (Ctx (withRequestID (readRequest i) id)) id in
  let res := ServiceB.ServeHTTP E s i w in
  in_path i = "/process" ->
  url_error E (out_url req) = None ->
  do_result E req = DoResp {| StatusCode := 200; Body := BodyOk data |} ->
  unmarshal E data = inr upstream ->
  res.1 = Ret tt
  /\ status res.2 = Some 200
  /\ sentHeader res.2 "X-Request-ID" = id
  /\ body (rw res.2)
     = delivered_or_500 E (n_write w)
         (ServiceB.encode (combined upstream id (clock E (S (n_now w)))))
  /\ n_uuid res.2 = S (n_uuid w)
  /\ outbound res.2 = outbound w ++ [req]
  /\ logs_name id w res.2.
Proof.
  intros s id req res Hpath Hurl Hdo Hun.
  destruct (fresh_counters w) as (Hfu & Hfn & Hfw & Hfo & _).
  destruct (handleProcess_success E s (readRequest i) (fresh w) data upstream)
    as (w1 & Hrun & Hst & Hhdr & _ & Hbody & Hout & Hid & Hlog);
    rewrite ?Hfu; try assumption.
  { now rewrite fresh_rw. }
  subst res. rewrite (ServeHTTP_process E s i w Hpath), Hrun.
  cbn [fst snd]. rewrite Hfu in Hhdr, Hbody, Hout, Hid, Hlog.
  rewrite fresh_rw, Hfn, Hfw in Hbody. rewrite Hfo in Hout.
  split; [reflexivity|]. do 5 (split; [assumption|]).
  now apply logs_name_fresh.
Qed.

Lemma served_healthB s i w :
  let res := ServiceB.ServeHTTP E s i w in
  in_path i = "/health" ->
  res.1 = Ret tt
  /\ status res.2 = Some 200
  /\ sentHeader res.2 "X-Request-ID" = ""
  /\ body (rw res.2)
     = delivered E (n_write w)
         (JMap (healthStatus (rfc3339 E (clock E (S (n_now w))))
                  (uuids E (n_uuid w)) (ServiceB.Port (ServiceB.config s))))
  /\ n_uuid res.2 = S (n_uuid w)
  /\ outbound res.2 = outbound w
  /\ logs_name (uuids E (n_uuid w)) w res.2.
Proof.
  intros res Hpath.
  destruct (handleHealthB_run E s (readRequest i) (fresh w))
    as (w1 & Hrun & Hst & Hhdr & Hbody & Hout & Hid & Hlog).
  { now rewrite fresh_rw. }
  destruct (fresh_counters w) as (Hfu & Hfn & Hfw & Hfo & _).
  subst res. rewrite (ServeHTTPB_health E s i w Hpath), Hrun.
  cbn [fst snd]. rewrite fresh_rw in Hhdr, Hbody.
  rewrite Hfw, Hfn, Hfu in Hbody. rewrite Hfu in Hlog.
  split; [reflexivity|]. do 3 (split; [assumption|]). split; [|split].
  - now rewrite Hid, Hfu.
  - now rewrite Hout, Hfo.
  - now apply logs_name_fresh.
Qed.

End ServedB.

(** ** The upstream greeting endpoint *)

(** C4. A request to [/greet] whose [X-Auth-Key] header is missing or
    differs from the secret [main] configured is answered with status 401
    and nothing but the plain-text rejection; no timestamp is taken, and
    the answer is the same whatever handler the middleware wraps: the
    wrapped handler is never called. *)
Theorem greet_rejects_bad_credential {payload} (E : Env payload)
  (getenv : string -> string) (i : Inbound) (w : World) :
  let s := ServiceA.NewServer (ServiceA.mainConfig getenv) in
  in_path i = "/greet" ->
  in_header i !! "X-Auth-Key" = None
  \/ http.Get (in_header i) "X-Auth-Key" <> ServiceA.AuthKey (ServiceA.config s) ->
  let res := ServiceA.ServeHTTP E s i w in
  res.1 = Ret tt
  /\ status res.2 = Some 401
  /\ (forall c, c ∈ body (rw res.2) -> c = Text ("Unauthorized" +:+ newline))
  /\ n_now res.2 = n_now w
  /\ forall next,
       serve E [("/greet", ServiceA.authMiddleware E s next);
                ("/health", ServiceA.handleHealth E s)] i w
       = res.
Proof.
  intros s Hpath Hkey res.
  assert (Hne : http.Get (in_header i) "X-Auth-Key"
                <> ServiceA.AuthKey (ServiceA.config s)).
  { destruct Hkey as [Hmiss | Hne]; [|exact Hne].
    rewrite (auth_header_missing _ Hmiss).
    intros Heq. symmetry in Heq. revert Heq.
    apply mainConfig_AuthKey_nonempty. }
  destruct (served_greet_rejected E s i w Hpath Hne)
    as (Hret & Hst & _ & Hbody & Hnow & _ & _ & Hnext).
  split; [exact Hret|]. split; [exact Hst|]. split; [|split].
  - intros c Hc. subst res. rewrite Hbody in Hc.
    now apply in_delivered in Hc.
  - exact Hnow.
  - exact Hnext.
Qed.

Lemma greet_rejects_bad_credential_witness :
  status (ServiceA.ServeHTTP env_down serverA greet_bad world0).2 = Some 401
  /\ status (ServiceA.ServeHTTP env_down serverA greet_bare world0).2
     = Some 401.
Proof.
  split.
  - apply (greet_rejects_bad_credential env_down no_environment greet_bad
             world0).
    + reflexivity.
    + right. vm_compute. discriminate.
  - apply (greet_rejects_bad_credential env_down no_environment greet_bare
             world0).
    + reflexivity.
    + left. reflexivity.
Defined.

(** C5. A request to [/greet] whose [X-Auth-Key] header equals the
    configured secret is answered with status 200, and the [X-Request-ID]
    header sent with it is the [request_id] member of every JSON body
    written; unless the connection fails, one body is written: the JSON
    object with the greeting, the identifier generated for the request,
    which is the one in the header, and the time. *)
Theorem greet_accepts_credential {payload} (E : Env payload)
  (cfg : ServiceA.Config) (i : Inbound) (w : World) :
  let s := ServiceA.NewServer cfg in
  let id := uuids E (n_uuid w) in
  in_path i = "/greet" ->
  http.Get (in_header i) "X-Auth-Key" = ServiceA.AuthKey cfg ->
  let res := ServiceA.ServeHTTP E s i w in
  res.1 = Ret tt
  /\ status res.2 = Some 200
  /\ sentHeader res.2 "X-Request-ID" = id
  /\ (forall c, c ∈ body (rw res.2) -> is_json c = true ->
        json_field "request_id" c
        = Some (JStr (sentHeader res.2 "X-Request-ID")))
  /\ (write_error E (n_write w) = None ->
      body (rw res.2)
      = [JObject
           [("message", JStr "Hello from Service A!");
            ("request_id", JStr (sentHeader res.2 "X-Request-ID"));
            ("timestamp", JTime (clock E (n_now w)))]]).
Proof.
  intros s id Hpath Hkey res.
  destruct (served_greet_accepted E cfg i w Hpath Hkey)
    as (Hret & Hst & Hhdr & Hbody & _).
  split; [exact Hret|]. split; [exact Hst|]. split; [exact Hhdr|].
  subst res s. split.
  - intros c Hc Hjson. rewrite Hhdr. rewrite Hbody in Hc.
    apply in_delivered_or_500 in Hc; [|exact Hjson]. now subst c.
  - intros Hok. rewrite Hhdr, Hbody.
    rewrite (delivered_or_500_ok E _ _ Hok). reflexivity.
Qed.

Lemma greet_accepts_credential_witness :
  status (ServiceA.ServeHTTP env_down serverA greet_good world0).2 = Some 200
  /\ sentHeader (ServiceA.ServeHTTP env_down serverA greet_good world0).2
       "X-Request-ID" = "id-0"
  /\ body (rw (ServiceA.ServeHTTP env_down serverA greet_good world0).2)
     = [JObject [("message", JStr "Hello from Service A!");
                 ("request_id", JStr "id-0");
                 ("timestamp", JTime 1700000000)]].
Proof.
  destruct (greet_accepts_credential env_down
              (ServiceA.mainConfig no_environment) greet_good world0
              eq_refl eq_refl) as (_ & Hst & Hhdr & _ & Hbody).
  split; [exact Hst|]. split; [exact Hhdr|].
  pose proof (Hbody eq_refl) as Hb. rewrite Hhdr in Hb. exact Hb.
Defined.

(** C10. The middleware reads an absent [X-Auth-Key] header exactly as it
    reads one sent with an empty value, namely as the empty string; it
    calls the wrapped handler if and only if the string it read equals the
    configured secret, and answers 401 by itself if and only if it does
    not.  So with an empty secret a request without the header is
    accepted, and the wrapped handler runs on it. *)
Theorem authMiddleware_decides_by_equality {payload} (E : Env payload)
  (s : ServiceA.Server) (r : Request) (w : World) :
  let key := http.Get (ReqHeader r) "X-Auth-Key" in
  let accepted :=
    exists w1, untouched w w1
      /\ forall next, ServiceA.authMiddleware E s next r w
                      = next (withRequestID r (uuids E (n_uuid w))) w1 in
  let rejected :=
    exists w1, status w1 = Some 401
      /\ forall next, ServiceA.authMiddleware E s next r w = (Ret tt, w1) in
  wrote (rw w) = None ->
  (ReqHeader r !! "X-Auth-Key" = None -> key = "")
  /\ (ReqHeader r !! "X-Auth-Key" = Some [""] -> key = "")
  /\ (accepted <-> key = ServiceA.AuthKey (ServiceA.config s))
  /\ (rejected <-> key <> ServiceA.AuthKey (ServiceA.config s))
  /\ (ServiceA.AuthKey (ServiceA.config s) = "" ->
      ReqHeader r !! "X-Auth-Key" = None -> accepted).
Proof.
  intros key accepted rejected Hw.
  assert (Hacc : key = ServiceA.AuthKey (ServiceA.config s) -> accepted).
  { intros Hk. destruct (authMiddleware_accept E s r w Hk)
      as (w1 & Hrun & Hun & _).
    exists w1. split; assumption. }
  assert (Hrej : key <> ServiceA.AuthKey (ServiceA.config s) -> rejected).
  { intros Hk. destruct (authMiddleware_reject E s r w Hk Hw)
      as (w1 & Hrun & Hst & _).
    exists w1. split; assumption. }
  assert (Hexcl : accepted -> rejected -> False).
  { intros (w1 & _ & Ha) (w2 & _ & Hr).
    specialize (Ha (fun _ => panic "wrapped handler")).
    specialize (Hr (fun _ => panic "wrapped handler")).
    rewrite Hr in Ha. discriminate. }
  split; [exact (Get_missing (ReqHeader r) "X-Auth-Key")|].
  split; [exact (Get_empty_value (ReqHeader r) "X-Auth-Key")|].
  split; [|split].
  - split; [|exact Hacc]. intros Ha.
    destruct (string_dec key (ServiceA.AuthKey (ServiceA.config s)))
      as [Heq|Hne]; [exact Heq|].
    destruct (Hexcl Ha (Hrej Hne)).
  - split; [|exact Hrej]. intros Hr Heq. exact (Hexcl (Hacc Heq) Hr).
  - intros Hsecret Hmiss. apply Hacc. subst key.
    now rewrite (auth_header_missing _ Hmiss), Hsecret.
Qed.

Lemma authMiddleware_decides_by_equality_witness :
  exists w1,
    forall next,
      ServiceA.authMiddleware env_down serverA_empty_secret next
        (readRequest greet_bare) world0
      = next (withRequestID (readRequest greet_bare) "id-0") w1.
Proof.
  destruct (authMiddleware_decides_by_equality env_down serverA_empty_secret
              (readRequest greet_bare) world0 eq_refl)
    as (_ & _ & _ & _ & H).
  destruct (H eq_refl eq_refl) as (w1 & _ & Hnext).
  exists w1. exact Hnext.
Defined.

(** ** The downstream orchestrator *)

(** C3. [handleProcess] binds the identifier in a context of its own,
    which goes to the outbound request only; the inbound request keeps the
    server's context, where ["request_id"] is unbound.  On every class of
    outbound call error [handleError] therefore fails its type assertion
    on the nil value: the request ends in a panic with no status line and
    no body written, and the error record is never logged. *)
Theorem process_error_panics (E : Env ServiceB.ServiceAResponse)
  (cfg : ServiceB.Config) (i : Inbound) (w : World)
  (logMessage : string) (statusCode : Z) :
  let s := ServiceB.NewServer cfg in
  let id := uuids E (n_uuid w) in
  let req :=
    ServiceB.greetRequest s (Ctx (withRequestID (readRequest i) id)) id in
  in_path i = "/process" ->
  OutboundCallError E req logMessage statusCode ->
  let res := ServiceB.ServeHTTP E s i w in
  context.Value (Ctx (readRequest i)) (context.KString "request_id") = None
  /\ context.Value (out_ctx req) (context.KString "request_id")
     = Some (context.VString id)
  /\ res.1 = Panic nil_assertion
  /\ status res.2 = None
  /\ body (rw res.2) = []
  /\ exists new,
       logs res.2 = logs w ++ new
       /\ Forall (fun rec => level rec = LevelInfo) new.
Proof.
  intros s id req Hpath Herr res.
  destruct (fresh_counters w) as (Hfu & _ & _ & _ & Hfl).
  destruct (handleProcess_error E s (readRequest i) (fresh w)
              logMessage statusCode (readRequest_no_request_id i))
    as (w1 & Hrun & Hrw & _ & new & Hlogs & Hinfo).
  { rewrite Hfu. exact Herr. }
  subst res. rewrite (ServeHTTP_process E s i w Hpath), Hrun.
  cbn [fst snd]. unfold status. rewrite Hrw, fresh_rw. rewrite Hfl in Hlogs.
  split; [reflexivity|]. split; [apply withRequestID_value|].
  do 3 (split; [reflexivity|]). exists new. now split.
Qed.

Lemma process_error_panics_witness :
  (ServiceB.ServeHTTP env_down serverB process_request world0).1
  = Panic nil_assertion.
Proof.
  apply (process_error_panics env_down
           (ServiceB.mainConfig no_environment) process_request world0
           "Failed to call Service A" 503).
  - reflexivity.
  - apply (Dispatch env_down _ "dial tcp: connection refused"); reflexivity.
Defined.

(** C1, at an upstream that cannot be reached: the error is of the
    dispatch class, which maps to 503 and "Failed to call Service A", yet
    the request ends in the panic of [handleError] and the client receives
    neither a status line nor a body. *)
Theorem process_unreachable_upstream_writes_nothing :
  let id := uuids env_down 0 in
  let req :=
    ServiceB.greetRequest serverB
      (Ctx (withRequestID (readRequest process_request) id)) id in
  let res := ServiceB.ServeHTTP env_down serverB process_request world0 in
  OutboundCallError env_down req "Failed to call Service A" 503
  /\ res.1 = Panic nil_assertion
  /\ status res.2 = None
  /\ status res.2 <> Some 503
  /\ body (rw res.2) = [].
Proof.
  cbn zeta. split.
  - apply (Dispatch env_down _ "dial tcp: connection refused"); reflexivity.
  - split; [reflexivity|]. split; [reflexivity|].
    split; [discriminate | reflexivity].
Qed.

(** C7. When the upstream answers 200 with a body that decodes as a
    greeting, [/process] answers 200; every JSON body written holds the
    upstream's message, the fixed local message, the identifier generated
    for the request and the time read for the response, and unless the
    connection fails that body is written. *)
Theorem process_combines (E : Env ServiceB.ServiceAResponse)
  (cfg : ServiceB.Config) (i : Inbound) (w : World)
  (data : string) (upstream : ServiceB.ServiceAResponse) :
  let s := ServiceB.NewServer cfg in
  let id := uuids E (n_uuid w) in
  let req :=
    ServiceB.greetRequest s (Ctx (withRequestID (readRequest i) id)) id in
  in_path i = "/process" ->
  url_error E (out_url req) = None ->
  do_result E req = DoResp {| StatusCode := 200; Body := BodyOk data |} ->
  unmarshal E data = inr upstream ->
  let res := ServiceB.ServeHTTP E s i w in
  res.1 = Ret tt
  /\ status res.2 = Some 200
  /\ sentHeader res.2 "X-Request-ID" = id
  /\ (forall c, c ∈ body (rw res.2) -> is_json c = true ->
        combined_payload c (ServiceB.sa_Message upstream) id
          (clock E (S (n_now w))))
  /\ (write_error E (n_write w) = None ->
      body (rw res.2)
      = [ServiceB.encode (combined upstream id (clock E (S (n_now w))))]).
Proof.
  intros s id req Hpath Hurl Hdo Hun res.
  destruct (served_process_ok E cfg i w data upstream Hpath Hurl Hdo Hun)
    as (Hret & Hst & Hhdr & Hbody & _).
  split; [exact Hret|]. split; [exact Hst|]. split; [exact Hhdr|].
  subst res s. split.
  - intros c Hc Hjson. rewrite Hbody in Hc.
    apply in_delivered_or_500 in Hc; [|exact Hjson]. subst c.
    repeat split.
  - intros Hok. rewrite Hbody. now apply delivered_or_500_ok.
Qed.

Lemma process_combines_witness :
  body (rw (ServiceB.ServeHTTP env_up serverB process_request world0).2)
  = [JObject [("service_a_message", JStr "Hello from Service A!");
              ("service_b_message", JStr "Hello from Service B!");
              ("request_id", JStr "id-0");
              ("timestamp", JTime 1700000001)]].
Proof.
  apply (process_combines env_up (ServiceB.mainConfig no_environment)
           process_request world0 "{greeting}" sample_greeting);
    reflexivity.
Defined.

(** ** The health endpoints *)

Lemma healthStatus_payload timestamp id port :
  health_payload (JMap (healthStatus timestamp id port)) id timestamp port.
Proof.
  unfold health_payload, healthStatus, json_field.
  repeat split; now simplify_map_eq.
Qed.

Lemma health_body {payload} (E : Env payload) (bd : list Chunk) n
  timestamp id port :
  bd = delivered E n (JMap (healthStatus timestamp id port)) ->
  (forall c, c ∈ bd -> health_payload c id timestamp port)
  /\ (write_error E n = None ->
      bd = [JMap (healthStatus timestamp id port)]).
Proof.
  intros ->. split.
  - intros c Hc. apply in_delivered in Hc. subst c.
    apply healthStatus_payload.
  - intros Hok. now rewrite delivered_ok.
Qed.

Lemma handleHealthB_reads (E : Env ServiceB.ServiceAResponse) s s' r r' :
  ServiceB.Port (ServiceB.config s) = ServiceB.Port (ServiceB.config s') ->
  ServiceB.logger s = ServiceB.logger s' ->
  RemoteAddr r = RemoteAddr r' -> Method r = Method r' -> Path r = Path r' ->
  ServiceB.handleHealth E s r = ServiceB.handleHealth E s' r'.
Proof.
  intros Hp Hl Ha Hm Hq. unfold ServiceB.handleHealth.
  now rewrite Hp, Hl, Ha, Hm, Hq.
Qed.

(** C8. On either service a request to [/health] is answered with status
    200; the payload written holds the identifier generated in this
    invocation, the time read in it, and the configured port; exactly one
    identifier is drawn; no outbound request is made; and the answer does
    not depend on the request's headers nor on the configured secret (or,
    downstream, on the upstream address and secret): no credential is
    checked. *)
Theorem health_reports {payload} (EA : Env payload)
  (EB : Env ServiceB.ServiceAResponse)
  (cfgA : ServiceA.Config) (cfgB : ServiceB.Config)
  (i : Inbound) (w : World) :
  in_path i = "/health" ->
  let resA := ServiceA.ServeHTTP EA (ServiceA.NewServer cfgA) i w in
  let resB := ServiceB.ServeHTTP EB (ServiceB.NewServer cfgB) i w in
  (resA.1 = Ret tt
   /\ status resA.2 = Some 200
   /\ (forall c, c ∈ body (rw resA.2) ->
         health_payload c (uuids EA (n_uuid w))
           (rfc3339 EA (clock EA (S (n_now w)))) (ServiceA.Port cfgA))
   /\ (write_error EA (n_write w) = None ->
       body (rw resA.2)
       = [JMap (healthStatus (rfc3339 EA (clock EA (S (n_now w))))
                  (uuids EA (n_uuid w)) (ServiceA.Port cfgA))])
   /\ n_uuid resA.2 = S (n_uuid w)
   /\ outbound resA.2 = outbound w
   /\ forall h key,
        ServiceA.ServeHTTP EA (ServiceA.NewServer (with_AuthKey cfgA key))
          (with_header i h) w
        = resA)
  /\ (resB.1 = Ret tt
      /\ status resB.2 = Some 200
      /\ (forall c, c ∈ body (rw resB.2) ->
            health_payload c (uuids EB (n_uuid w))
              (rfc3339 EB (clock EB (S (n_now w)))) (ServiceB.Port cfgB))
      /\ (write_error EB (n_write w) = None ->
          body (rw resB.2)
          = [JMap (healthStatus (rfc3339 EB (clock EB (S (n_now w))))
                     (uuids EB (n_uuid w)) (ServiceB.Port cfgB))])
      /\ n_uuid resB.2 = S (n_uuid w)
      /\ outbound resB.2 = outbound w
      /\ forall h url key,
           ServiceB.ServeHTTP EB
             (ServiceB.NewServer (with_upstream cfgB url key))
             (with_header i h) w
           = resB).
Proof.
  intros Hpath resA resB. split.
  - destruct (served_healthA EA (ServiceA.NewServer cfgA) i w Hpath)
      as (Hret & Hst & _ & Hbody & Hid & Hout & _).
    destruct (health_body EA _ _ _ _ _ Hbody) as (Hpayload & Hone).
    subst resA. do 6 (split; [assumption|]).
    intros h key.
    rewrite (ServeHTTP_health EA _ (with_header i h) w Hpath).
    rewrite (ServeHTTP_health EA _ i w Hpath).
    now rewrite (handleHealth_reads EA
                   (ServiceA.NewServer (with_AuthKey cfgA key))
                   (ServiceA.NewServer cfgA)
                   (readRequest (with_header i h)) (readRequest i)).
  - destruct (served_healthB EB (ServiceB.NewServer cfgB) i w Hpath)
      as (Hret & Hst & _ & Hbody & Hid & Hout & _).
    destruct (health_body EB _ _ _ _ _ Hbody) as (Hpayload & Hone).
    subst resB. do 6 (split; [assumption|]).
    intros h url key.
    rewrite (ServeHTTPB_health EB _ (with_header i h) w Hpath).
    rewrite (ServeHTTPB_health EB _ i w Hpath).
    now rewrite (handleHealthB_reads EB
                   (ServiceB.NewServer (with_upstream cfgB url key))
                   (ServiceB.NewServer cfgB)
                   (readRequest (with_header i h)) (readRequest i)).
Qed.

Lemma health_reports_witness :
  status (ServiceA.ServeHTTP env_down serverA health_request world0).2
  = Some 200
  /\ status (ServiceB.ServeHTTP env_down serverB health_request world0).2
     = Some 200
  /\ outbound (ServiceB.ServeHTTP env_down serverB health_request world0).2
     = [].
Proof.
  pose proof (health_reports env_down env_down
                (ServiceA.mainConfig no_environment)
                (ServiceB.mainConfig no_environment)
                health_request world0 eq_refl) as [HA HB].
  split; [apply HA|]. split; apply HB.
Defined.

(** ** The correlation identifier *)

(** C2, as stated, fails on the rejection of [/greet] and on [/health]:
    both answer without an [X-Request-ID] header, so the header does not
    hold the identifier generated for the request. *)
Lemma responses_without_request_id_header :
  let refused := ServiceA.ServeHTTP env_down serverA greet_bad world0 in
  let health := ServiceA.ServeHTTP env_down serverA health_request world0 in
  status refused.2 = Some 401
  /\ ~ carries refused.2 (uuids env_down (n_uuid world0))
  /\ status health.2 = Some 200
  /\ ~ carries health.2 (uuids env_down (n_uuid world0)).
Proof.
  cbn zeta. split; [reflexivity|]. split; [|split; [reflexivity|]].
  - intros [H _]. vm_compute in H. discriminate.
  - intros [H _]. vm_compute in H. discriminate.
Qed.

(** C2, amended.  On [/greet] with the matching credential and on
    [/process] with a successful upstream call, the response carries the
    identifier generated for the request in the [X-Request-ID] header and
    in every JSON body; a [/health] response of either service carries it
    in the JSON body only, whatever becomes of any upstream; the 401 of
    [/greet] carries none.  In each case one identifier is drawn for the
    request and every record logged while serving it names that
    identifier; and in each case but the 401 a JSON body is written
    unless the write fails. *)
Theorem correlation_id_carried {payload} (EA : Env payload)
  (EB : Env ServiceB.ServiceAResponse)
  (cfgA : ServiceA.Config) (cfgB : ServiceB.Config)
  (iG iR iP iH : Inbound) (w : World) :
  let sA := ServiceA.NewServer cfgA in
  let sB := ServiceB.NewServer cfgB in
  let idA := uuids EA (n_uuid w) in
  let idB := uuids EB (n_uuid w) in
  let req :=
    ServiceB.greetRequest sB (Ctx (withRequestID (readRequest iP) idB)) idB in
  let greeted := (ServiceA.ServeHTTP EA sA iG w).2 in
  let refused := (ServiceA.ServeHTTP EA sA iR w).2 in
  let processed := (ServiceB.ServeHTTP EB sB iP w).2 in
  let healthA := (ServiceA.ServeHTTP EA sA iH w).2 in
  let healthB := (ServiceB.ServeHTTP EB sB iH w).2 in
  (in_path iG = "/greet" ->
   http.Get (in_header iG) "X-Auth-Key" = ServiceA.AuthKey cfgA ->
   carries greeted idA /\ answers_json EA w greeted
   /\ one_identifier idA w greeted)
  /\ (in_path iP = "/process" ->
      forall data upstream,
        url_error EB (out_url req) = None ->
        do_result EB req
        = DoResp {| StatusCode := 200; Body := BodyOk data |} ->
        unmarshal EB data = inr upstream ->
        carries processed idB /\ answers_json EB w processed
        /\ one_identifier idB w processed)
  /\ (in_path iH = "/health" ->
      carries_in_body_only healthA idA /\ answers_json EA w healthA
      /\ one_identifier idA w healthA)
  /\ (in_path iH = "/health" ->
      carries_in_body_only healthB idB /\ answers_json EB w healthB
      /\ one_identifier idB w healthB)
  /\ (in_path iR = "/greet" ->
      http.Get (in_header iR) "X-Auth-Key" <> ServiceA.AuthKey cfgA ->
      carries_nothing refused /\ one_identifier idA w refused).
Proof.
  intros sA sB idA idB req greeted refused processed healthA healthB.
  split; [|split; [|split; [|split]]].
  - intros HG HGk.
    destruct (served_greet_accepted EA cfgA iG w HG HGk)
      as (_ & _ & Hhdr & Hbody & Hid & _ & Hlog).
    subst greeted sA. split; [split|split; [|split]]; try assumption.
    + intros c Hc Hjson. rewrite Hbody in Hc.
      apply in_delivered_or_500 in Hc; [|exact Hjson]. now subst c.
    + intros Hok. rewrite Hbody, (delivered_or_500_ok EA _ _ Hok).
      eexists. split; reflexivity.
  - intros HP data upstream Hurl Hdo Hun.
    destruct (served_process_ok EB cfgB iP w data upstream HP Hurl Hdo Hun)
      as (_ & _ & Hhdr & Hbody & Hid & _ & Hlog).
    subst processed sB. split; [split|split; [|split]]; try assumption.
    + intros c Hc Hjson. rewrite Hbody in Hc.
      apply in_delivered_or_500 in Hc; [|exact Hjson]. now subst c.
    + intros Hok. rewrite Hbody, (delivered_or_500_ok EB _ _ Hok).
      eexists. split; reflexivity.
  - intros HH.
    destruct (served_healthA EA sA iH w HH)
      as (_ & _ & Hhdr & Hbody & Hid & _ & Hlog).
    subst healthA. split; [split|split; [|split]]; try assumption.
    + intros c Hc. rewrite Hbody in Hc. apply in_delivered in Hc. subst c.
      apply healthStatus_payload.
    + intros Hok. rewrite Hbody, (delivered_ok EA _ _ Hok).
      eexists. split; reflexivity.
  - intros HH.
    destruct (served_healthB EB sB iH w HH)
      as (_ & _ & Hhdr & Hbody & Hid & _ & Hlog).
    subst healthB. split; [split|split; [|split]]; try assumption.
    + intros c Hc. rewrite Hbody in Hc. apply in_delivered in Hc. subst c.
      apply healthStatus_payload.
    + intros Hok. rewrite Hbody, (delivered_ok EB _ _ Hok).
      eexists. split; reflexivity.
  - intros HR HRk.
    destruct (served_greet_rejected EA sA iR w HR HRk)
      as (_ & _ & Hhdr & Hbody & _ & Hid & Hlog & _).
    subst refused. repeat split; try assumption.
    intros c Hc. rewrite Hbody in Hc. apply in_delivered in Hc. now subst c.
Qed.

Lemma correlation_id_carried_witness :
  carries (ServiceA.ServeHTTP env_up serverA greet_good world0).2 "id-0"
  /\ carries (ServiceB.ServeHTTP env_up serverB process_request world0).2
       "id-0"
  /\ carries_in_body_only
       (ServiceA.ServeHTTP env_down serverA health_request world0).2 "id-0"
  /\ carries_in_body_only
       (ServiceB.ServeHTTP env_down serverB health_request world0).2 "id-0"
  /\ carries_nothing (ServiceA.ServeHTTP env_up serverA greet_bad world0).2.
Proof.
  destruct (correlation_id_carried env_up env_up
              (ServiceA.mainConfig no_environment)
              (ServiceB.mainConfig no_environment)
              greet_good greet_bad process_request health_request world0)
    as (HG & HP & _ & _ & HR).
  destruct (correlation_id_carried env_down env_down
              (ServiceA.mainConfig no_environment)
              (ServiceB.mainConfig no_environment)
              greet_good greet_bad process_request health_request world0)
    as (_ & _ & HA & HB & _).
  split; [apply HG; reflexivity|].
  split; [apply (HP eq_refl "{greeting}" sample_greeting); reflexivity|].
  split; [apply HA; reflexivity|].
  split; [apply HB; reflexivity|].
  apply HR; [reflexivity | vm_compute; discriminate].
Defined.

(** * Further properties of the two programs *)

(** ** Masking *)

Lemma len_two s : len s = 2%nat -> exists a b, s = String a (String b "").
Proof.
  destruct s as [|a [|b [|c s]]]; cbn; try discriminate. eauto.
Qed.

Lemma maskAuthKey_shape key :
  ServiceA.maskAuthKey key = "****"
  \/ exists a b c d, ServiceA.maskAuthKey key = masked a b c d.
Proof.
  unfold ServiceA.maskAuthKey, masked.
  destruct (Nat.ltb_spec 4 (len key)) as [Hlt|Hle]; [right | now left].
  destruct (slice_three_parts key Hlt) as (_ & Hf & Hl).
  destruct (len_two _ Hf) as (a & b & Ha).
  destruct (len_two _ Hl) as (c & d & Hc).
  exists a, b, c, d. now rewrite Ha, Hc.
Qed.

(** X1. Masking a masked key changes nothing, in either service: the
    result of [maskAuthKey] has four or eight bytes, and a key that
    already reads as two bytes, four stars, two bytes is printed as it
    is. *)
Theorem maskAuthKey_idempotent (key : string) :
  ServiceA.maskAuthKey (ServiceA.maskAuthKey key) = ServiceA.maskAuthKey key
  /\ ServiceB.maskAuthKey (ServiceB.maskAuthKey key)
     = ServiceB.maskAuthKey key
  /\ (len (ServiceA.maskAuthKey key) = 4%nat
      \/ len (ServiceA.maskAuthKey key) = 8%nat)
  /\ forall a b c d,
       ServiceA.maskAuthKey (masked a b c d) = masked a b c d.
Proof.
  change (ServiceB.maskAuthKey) with (ServiceA.maskAuthKey).
  split; [|split; [|split]]; try reflexivity.
  - destruct (maskAuthKey_shape key) as [H | (a & b & c & d & H)];
      now rewrite H.
  - destruct (maskAuthKey_shape key) as [H | (a & b & c & d & H)];
      now rewrite H.
  - destruct (maskAuthKey_shape key) as [H | (a & b & c & d & H)];
      rewrite H; [now left | now right].
Qed.

(** ** The configuration [main] loads *)

(** X2. Service A's [main] reads [PORT] and [AUTH_KEY] and nothing else:
    the log level is Info whatever the environment holds.  A variable
    that is set is taken as it is, one that is unset or empty is replaced
    by its default, 8080 and default-secret-key, so neither the port nor
    the secret is ever empty.  The package-level logger gets one record
    per default taken, in this order and no other record: an Info record
    with the default port, and a Warn record with the default secret in
    masked form, de****ey. *)
Theorem serviceA_loadConfig (getenv : string -> string) :
  let c := (ServiceA.loadConfig getenv).1 in
  let records := (ServiceA.loadConfig getenv).2 in
  c = ServiceA.mainConfig getenv
  /\ ServiceA.Port c <> "" /\ ServiceA.AuthKey c <> ""
  /\ ServiceA.LogLevel c = LevelInfo
  /\ (getenv "PORT" <> "" -> ServiceA.Port c = getenv "PORT")
  /\ (getenv "AUTH_KEY" <> "" -> ServiceA.AuthKey c = getenv "AUTH_KEY")
  /\ (forall getenv' : string -> string,
        getenv' "PORT" = getenv "PORT" ->
        getenv' "AUTH_KEY" = getenv "AUTH_KEY" ->
        ServiceA.loadConfig getenv' = ServiceA.loadConfig getenv)
  /\ (records = [] <-> getenv "PORT" <> "" /\ getenv "AUTH_KEY" <> "")
  /\ (forall rec v, rec ∈ records ->
        attr_string "default_key" (attrs rec) = Some v -> v = "de****ey")
  /\ (getenv "PORT" = "" -> ServiceA.Port c = "8080")
  /\ (getenv "AUTH_KEY" = "" -> ServiceA.AuthKey c = "default-secret-key")
  /\ records
     = (if String.eqb (getenv "PORT") ""
        then [{| level := LevelInfo;
                 msg := "No port specified, using default";
                 attrs := [AString "default_port" "8080"] |}]
        else [])
       ++ (if String.eqb (getenv "AUTH_KEY") ""
           then [{| level := LevelWarn;
                    msg := "No authentication key provided, using default. This is NOT recommended for production!";
                    attrs := [AString "default_key" "de****ey"] |}]
           else []).
Proof.
  intros c records. subst c records. unfold ServiceA.loadConfig,
    ServiceA.mainConfig.
  split; [|split; [|split; [|split; [|split; [|split; [|split; [|split;
    [|split; [|split; [|split]]]]]]]]]].
  - now destruct (String.eqb_spec (getenv "PORT") ""),
      (String.eqb_spec (getenv "AUTH_KEY") "").
  - now destruct (String.eqb_spec (getenv "PORT") ""),
      (String.eqb_spec (getenv "AUTH_KEY") "").
  - now destruct (String.eqb_spec (getenv "PORT") ""),
      (String.eqb_spec (getenv "AUTH_KEY") "").
  - now destruct (String.eqb_spec (getenv "PORT") ""),
      (String.eqb_spec (getenv "AUTH_KEY") "").
  - now destruct (String.eqb_spec (getenv "PORT") ""),
      (String.eqb_spec (getenv "AUTH_KEY") "").
  - now destruct (String.eqb_spec (getenv "PORT") ""),
      (String.eqb_spec (getenv "AUTH_KEY") "").
  - intros getenv' -> ->. reflexivity.
  - destruct (String.eqb_spec (getenv "PORT") ""),
      (String.eqb_spec (getenv "AUTH_KEY") ""); cbn;
      split; try discriminate; try tauto; now intros [? ?].
  - intros rec v Hrec Hv.
    destruct (String.eqb_spec (getenv "PORT") ""),
      (String.eqb_spec (getenv "AUTH_KEY") ""); cbn in Hrec;
      repeat (apply elem_of_cons in Hrec; destruct Hrec as [-> | Hrec]);
      try (now inversion Hrec); vm_compute in Hv; congruence.
  - now destruct (String.eqb_spec (getenv "PORT") ""),
      (String.eqb_spec (getenv "AUTH_KEY") "").
  - now destruct (String.eqb_spec (getenv "PORT") ""),
      (String.eqb_spec (getenv "AUTH_KEY") "").
  - now destruct (String.eqb_spec (getenv "PORT") ""),
      (String.eqb_spec (getenv "AUTH_KEY") "").
Qed.

(** X3. Service B's [main] reads [PORT], [SERVICE_A_URL] and
    [SERVICE_A_AUTH_KEY] and nothing else; the log level is Info.  A
    variable that is set is taken as it is, the others get their
    defaults, 8081, http://service-a:8080 and default-secret-key, so no
    setting is ever empty.  One record is logged per default taken, in
    this order and no other record: an Info record with the default
    port, a Warn record with the default URL, and a Warn record with the
    default secret in masked form, de****ey. *)
Theorem serviceB_loadConfig (getenv : string -> string) :
  let c := (ServiceB.loadConfig getenv).1 in
  let records := (ServiceB.loadConfig getenv).2 in
  c = ServiceB.mainConfig getenv
  /\ ServiceB.Port c <> "" /\ ServiceB.ServiceAURL c <> ""
  /\ ServiceB.ServiceAAuthKey c <> ""
  /\ ServiceB.LogLevel c = LevelInfo
  /\ (getenv "PORT" <> "" -> ServiceB.Port c = getenv "PORT")
  /\ (getenv "SERVICE_A_URL" <> "" ->
      ServiceB.ServiceAURL c = getenv "SERVICE_A_URL")
  /\ (getenv "SERVICE_A_AUTH_KEY" <> "" ->
      ServiceB.ServiceAAuthKey c = getenv "SERVICE_A_AUTH_KEY")
  /\ (forall getenv' : string -> string,
        getenv' "PORT" = getenv "PORT" ->
        getenv' "SERVICE_A_URL" = getenv "SERVICE_A_URL" ->
        getenv' "SERVICE_A_AUTH_KEY" = getenv "SERVICE_A_AUTH_KEY" ->
        ServiceB.loadConfig getenv' = ServiceB.loadConfig getenv)
  /\ (records = [] <->
      getenv "PORT" <> "" /\ getenv "SERVICE_A_URL" <> ""
      /\ getenv "SERVICE_A_AUTH_KEY" <> "")
  /\ (forall rec v, rec ∈ records ->
        attr_string "default_key" (attrs rec) = Some v -> v = "de****ey")
  /\ (getenv "PORT" = "" -> ServiceB.Port c = "8081")
  /\ (getenv "SERVICE_A_URL" = "" ->
      ServiceB.ServiceAURL c = "http://service-a:8080")
  /\ (getenv "SERVICE_A_AUTH_KEY" = "" ->
      ServiceB.ServiceAAuthKey c = "default-secret-key")
  /\ records
     = (if String.eqb (getenv "PORT") ""
        then [{| level := LevelInfo;
                 msg := "No port specified, using default";
                 attrs := [AString "default_port" "8081"] |}]
        else [])
       ++ (if String.eqb (getenv "SERVICE_A_URL") ""
           then [{| level := LevelWarn;
                    msg := "No Service A URL specified, using default";
                    attrs :=
                      [AString "default_url" "http://service-a:8080"] |}]
           else [])
       ++ (if String.eqb (getenv "SERVICE_A_AUTH_KEY") ""
           then [{| level := LevelWarn;
                    msg := "No authentication key provided, using default. This is NOT recommended for production!";
                    attrs := [AString "default_key" "de****ey"] |}]
           else []).
Proof.
  intros c records. subst c records. unfold ServiceB.loadConfig,
    ServiceB.mainConfig.
  assert (Hsame : forall getenv' : string -> string,
            getenv' "PORT" = getenv "PORT" ->
            getenv' "SERVICE_A_URL" = getenv "SERVICE_A_URL" ->
            getenv' "SERVICE_A_AUTH_KEY" = getenv "SERVICE_A_AUTH_KEY" ->
            ServiceB.loadConfig getenv' = ServiceB.loadConfig getenv).
  { intros getenv' Hp Hu Hk. unfold ServiceB.loadConfig.
    now rewrite Hp, Hu, Hk. }
  split; [|split; [|split; [|split; [|split; [|split; [|split; [|split;
    [|split; [exact Hsame | split; [|split; [|split; [|split;
    [|split]]]]]]]]]]]]].
  all: destruct (String.eqb_spec (getenv "PORT") ""),
    (String.eqb_spec (getenv "SERVICE_A_URL") ""),
    (String.eqb_spec (getenv "SERVICE_A_AUTH_KEY") ""); cbn;
    try reflexivity; try discriminate; try tauto.
  all: try (split; [discriminate | now intros (? & ? & ?)]).
  all: intros rec v Hrec Hv;
    repeat (apply elem_of_cons in Hrec; destruct Hrec as [-> | Hrec]);
    try (now inversion Hrec); vm_compute in Hv; congruence.
Qed.

(** ** Start, shutdown, and the two ends of [main] *)

Lemma mainConfig_auth_configured getenv :
  negb (String.eqb (ServiceA.AuthKey (ServiceA.mainConfig getenv)) "") = true.
Proof.
  cbn. destruct (String.eqb_spec (getenv "AUTH_KEY") ""); [reflexivity|].
  apply negb_true_iff. now apply String.eqb_neq.
Qed.

Lemma mainConfigB_auth_configured getenv :
  negb (String.eqb (ServiceB.ServiceAAuthKey (ServiceB.mainConfig getenv)) "")
  = true.
Proof.
  cbn. destruct (String.eqb_spec (getenv "SERVICE_A_AUTH_KEY") "");
    [reflexivity|].
  apply negb_true_iff. now apply String.eqb_neq.
Qed.

(** X4. [Start] of either service returns nil when the listener was
    closed by a shutdown (or returned nil) and returns any other error
    of the listener as it is, so it never returns [http.ErrServerClosed].
    On the servers [main] builds, it logs "Initializing server" first
    and "Server startup failed" after it exactly in the failing case,
    and the flag it logs about the secret is always true, the secret
    having been defaulted. *)
Theorem Start_reports (sA : ServiceA.Server) (sB : ServiceB.Server)
  (getenv : string -> string) (listen : option error) (w : World) :
  let result :=
    match listen with
    | Some (ErrOther text) => Some (ErrOther text)
    | _ => None
    end in
  let failure :=
    match listen with
    | Some (ErrOther _) => ["Server startup failed"]
    | _ => []
    end in
  let mA := ServiceA.NewServer (ServiceA.mainConfig getenv) in
  let mB := ServiceB.NewServer (ServiceB.mainConfig getenv) in
  (ServiceA.Start sA listen w).1 = Ret result
  /\ (ServiceB.Start sB listen w).1 = Ret result
  /\ result <> Some ErrServerClosed
  /\ messages_since w (ServiceA.Start mA listen w).2
     = "Initializing server" :: failure
  /\ messages_since w (ServiceB.Start mB listen w).2
     = "Initializing server" :: failure
  /\ (attr_bool "auth_configured" <$>
        (attrs <$> head (logged_since w (ServiceA.Start mA listen w).2)))
     = Some (Some true)
  /\ (attr_bool "service_a_auth_configured" <$>
        (attrs <$> head (logged_since w (ServiceB.Start mB listen w).2)))
     = Some (Some true).
Proof.
  intros result failure mA mB. subst result failure mA mB.
  pose proof (mainConfig_auth_configured getenv) as HA.
  pose proof (mainConfigB_auth_configured getenv) as HB.
  cbn in HA, HB. destruct w as [r l o nu nn nw].
  unfold messages_since, logged_since, ServiceA.Start, ServiceB.Start.
  destruct listen as [[|text]|]; cbn; rewrite <- ?app_assoc, ?drop_app_length;
    cbn; rewrite HA, HB; repeat split; discriminate.
Qed.

(** X5. The goroutine of [main] ends the process, with status 1, exactly
    when the listener fails with an error other than
    [http.ErrServerClosed]; the failure is then logged twice, by [Start]
    and by the goroutine.  Its own test for [http.ErrServerClosed] never
    decides anything, since [Start] has already turned that error into
    nil. *)
Theorem startServer_exits (getenv : string -> string)
  (listen : option error) (w : World) :
  let sA := ServiceA.NewServer (ServiceA.mainConfig getenv) in
  let sB := ServiceB.NewServer (ServiceB.mainConfig getenv) in
  let resA := ServiceA.startServer sA listen w in
  let resB := ServiceB.startServer sB listen w in
  let failed := exists text, listen = Some (ErrOther text) in
  (resA.1 = Ret (Some 1) <-> failed)
  /\ (resA.1 = Ret None <-> ~ failed)
  /\ resB.1 = resA.1
  /\ messages_since w resA.2
     = "Initializing server" ::
       match resA.1 with
       | Ret (Some _) => ["Server startup failed"; "Server start error"]
       | _ => []
       end
  /\ messages_since w resB.2 = messages_since w resA.2.
Proof.
  intros sA sB resA resB failed. subst sA sB resA resB failed.
  destruct w as [r l o nu nn nw].
  unfold messages_since, logged_since, ServiceA.startServer,
    ServiceB.startServer, ServiceA.Start, ServiceB.Start.
  destruct listen as [[|text]|]; cbn;
    rewrite <- ?app_assoc, ?drop_app_length; cbn; repeat split;
    try discriminate; try (intros (t & Ht); discriminate);
    try (intros _; intros (t & Ht); discriminate); eauto.
  intros H. destruct H. eauto.
Qed.

(** X6. [Shutdown] of either service asserts that its context holds a
    string under ["timeout"]: on a context without it the call panics
    before anything is logged and whatever the server's own shutdown
    would return; on a context with it the call returns the server's
    error, or nil, as it is. *)
Theorem Shutdown_needs_timeout (sA : ServiceA.Server) (sB : ServiceB.Server)
  (ctx : context.Context) (down : option error) (w : World) :
  (context.Value ctx (context.KString "timeout") = None ->
   ServiceA.Shutdown sA ctx down w = (Panic nil_assertion, w)
   /\ ServiceB.Shutdown sB ctx down w = (Panic nil_assertion, w))
  /\ (forall t,
        context.Value ctx (context.KString "timeout")
        = Some (context.VString t) ->
        (ServiceA.Shutdown sA ctx down w).1 = Ret down
        /\ (ServiceB.Shutdown sB ctx down w).1 = Ret down).
Proof.
  unfold ServiceA.Shutdown, ServiceB.Shutdown. split.
  - intros ->. split; reflexivity.
  - intros t ->. destruct w, down; split; reflexivity.
Qed.

(** X7. From the signal on, [main] of either service never panics: the
    context it hands to [Shutdown] holds "10s" under ["timeout"], which
    is the timeout the first record logged names, in Service A and in
    Service B.  It logs the start of the shutdown, then either its
    success or its failure twice (by [Shutdown] and by [main], the latter
    with the timeout 10s again), and in both cases ends with "shutdown
    complete". *)
Theorem shutdownOnSignal_completes (getenv : string -> string)
  (down : option error) (w : World) :
  let sA := ServiceA.NewServer (ServiceA.mainConfig getenv) in
  let sB := ServiceB.NewServer (ServiceB.mainConfig getenv) in
  let resA := ServiceA.shutdownOnSignal sA down w in
  let resB := ServiceB.shutdownOnSignal sB down w in
  let middle :=
    match down with
    | None => ["Server shutdown completed successfully"]
    | Some _ => ["Graceful shutdown failed"; "Server shutdown error"]
    end in
  resA.1 = Ret tt /\ resB.1 = Ret tt
  /\ messages_since w resA.2
     = "Initiating graceful shutdown" :: middle
       ++ ["Service A shutdown complete"]
  /\ messages_since w resB.2
     = "Initiating graceful shutdown" :: middle
       ++ ["Service B shutdown complete"]
  /\ (attr_string "timeout" <$> (attrs <$> head (logged_since w resA.2)))
     = Some (Some "10s")
  /\ (attr_string "timeout" <$> (attrs <$> head (logged_since w resB.2)))
     = Some (Some "10s")
  /\ (forall rec,
        rec ∈ logged_since w resA.2 ++ logged_since w resB.2 ->
        msg rec = "Server shutdown error" ->
        attr_string "timeout" (attrs rec) = Some "10s").
Proof.
  intros sA sB resA resB middle. subst sA sB resA resB middle.
  destruct w as [r l o nu nn nw].
  unfold messages_since, logged_since, ServiceA.shutdownOnSignal,
    ServiceB.shutdownOnSignal, ServiceA.Shutdown, ServiceB.Shutdown.
  destruct down as [e|]; cbn;
    (destruct (decide (context.KString "timeout" = context.KString "timeout"));
     [|congruence]); cbn; rewrite <- ?app_assoc, ?drop_app_length;
    repeat split.
  all: intros rec Hrec Hmsg; cbn in Hrec;
    repeat (apply elem_of_cons in Hrec; destruct Hrec as [-> | Hrec]);
    try (now inversion Hrec); try discriminate Hmsg; reflexivity.
Qed.

(** ** What a request's answer depends on *)

Ltac bound_id :=
  match goal with
  | |- context [decide (context.KString ?k = context.KString ?k)] =>
      destruct (decide (context.KString k = context.KString k));
      [|congruence]
  end.

Ltac headers :=
  repeat first [ rewrite Get_Set_eq
               | rewrite Get_Set_ne by other_key
               | rewrite Get_empty ].

(** X8. Service A reads one request header, [X-Auth-Key]: on its two
    routes, replacing the headers of a request by any others that carry
    the same [X-Auth-Key] changes nothing, neither the outcome, nor the
    response, nor the log.  In particular an [X-Request-ID] sent by the
    caller is ignored. *)
Theorem serviceA_reads_one_header {payload} (E : Env payload)
  (s : ServiceA.Server) (i : Inbound) (h : http.Header) (w : World) :
  in_path i = "/greet" \/ in_path i = "/health" ->
  http.Get h "X-Auth-Key" = http.Get (in_header i) "X-Auth-Key" ->
  ServiceA.ServeHTTP E s (with_header i h) w = ServiceA.ServeHTTP E s i w.
Proof.
  intros [Hpath | Hpath] Hkey.
  - rewrite (ServeHTTP_greet E s (with_header i h) w Hpath).
    rewrite (ServeHTTP_greet E s i w Hpath).
    unfold ServiceA.authMiddleware.
    cbn [readRequest with_header ReqHeader in_header in_method in_path
         in_addr Method Path RemoteAddr Ctx WithContext].
    rewrite Hkey. reflexivity.
  - rewrite (ServeHTTP_health E s (with_header i h) w Hpath).
    rewrite (ServeHTTP_health E s i w Hpath). reflexivity.
Qed.

Lemma serviceA_reads_one_header_witness :
  ServiceA.ServeHTTP env_up serverA (with_header greet_good traced_header)
    world0
  = ServiceA.ServeHTTP env_up serverA greet_good world0.
Proof.
  apply (serviceA_reads_one_header env_up serverA greet_good traced_header
           world0).
  - left. reflexivity.
  - vm_compute. reflexivity.
Defined.

(** X9. The configured secret reaches nothing but the comparison, and
    on an accepted request neither does the key.  Take two servers that
    differ in the secret and two requests to [/greet] that differ in the
    headers, such that both requests are accepted or both are rejected,
    and such that rejected keys are masked alike: then outcome, response
    and log are the same.  So an accepted request leaves no trace of
    what the secret is, and a rejected one none but the masked key. *)
Theorem serviceA_secret_only_decides {payload} (E : Env payload)
  (cfg : ServiceA.Config) (secret : string) (i : Inbound) (h : http.Header)
  (w : World) :
  let key := http.Get (in_header i) "X-Auth-Key" in
  let key' := http.Get h "X-Auth-Key" in
  in_path i = "/greet" ->
  (key = ServiceA.AuthKey cfg <-> key' = secret) ->
  (key <> ServiceA.AuthKey cfg ->
   ServiceA.maskAuthKey key' = ServiceA.maskAuthKey key) ->
  ServiceA.ServeHTTP E (ServiceA.NewServer (with_AuthKey cfg secret))
    (with_header i h) w
  = ServiceA.ServeHTTP E (ServiceA.NewServer cfg) i w.
Proof.
  intros key key' Hpath Hiff Hmask.
  rewrite (ServeHTTP_greet E _ (with_header i h) w Hpath).
  rewrite (ServeHTTP_greet E _ i w Hpath).
  unfold ServiceA.authMiddleware.
  cbn [readRequest with_header WithContext ReqHeader ServiceA.config
       ServiceA.NewServer ServiceA.AuthKey with_AuthKey in_header in_method
       in_path in_addr Method Path RemoteAddr Ctx].
  fold key. fold key'.
  destruct (string_dec key (ServiceA.AuthKey cfg)) as [Heq | Hne].
  - rewrite (proj1 Hiff Heq), <- Heq, !compare_eqb_true. reflexivity.
  - rewrite (compare_eqb_false _ _ Hne).
    rewrite (compare_eqb_false key' secret) by tauto.
    rewrite (Hmask Hne). reflexivity.
Qed.

Lemma serviceA_secret_only_decides_witness :
  ServiceA.ServeHTTP env_up
    (ServiceA.NewServer
       (with_AuthKey (ServiceA.mainConfig no_environment) "another-secret"))
    greet_other world0
  = ServiceA.ServeHTTP env_up serverA greet_good world0.
Proof.
  apply (serviceA_secret_only_decides env_up
           (ServiceA.mainConfig no_environment) "another-secret" greet_good
           (in_header greet_other) world0).
  - reflexivity.
  - split; intros _; vm_compute; reflexivity.
  - intros H. exfalso. apply H. vm_compute. reflexivity.
Defined.

(** X10. Service B reads no request header at all: on its two routes the
    headers of the request can be replaced by any others. *)
Theorem serviceB_reads_no_header (E : Env ServiceB.ServiceAResponse)
  (s : ServiceB.Server) (i : Inbound) (h : http.Header) (w : World) :
  in_path i = "/process" \/ in_path i = "/health" ->
  ServiceB.ServeHTTP E s (with_header i h) w = ServiceB.ServeHTTP E s i w.
Proof.
  intros [Hpath | Hpath].
  - rewrite (ServeHTTP_process E s (with_header i h) w Hpath).
    rewrite (ServeHTTP_process E s i w Hpath). reflexivity.
  - rewrite (ServeHTTPB_health E s (with_header i h) w Hpath).
    rewrite (ServeHTTPB_health E s i w Hpath). reflexivity.
Qed.

Lemma serviceB_reads_no_header_witness :
  ServiceB.ServeHTTP env_up serverB (with_header process_request traced_header)
    world0
  = ServiceB.ServeHTTP env_up serverB process_request world0.
Proof.
  apply (serviceB_reads_no_header env_up serverB process_request
           traced_header world0).
  left. reflexivity.
Defined.

(** X11. The logger of Service A is write-only: two servers with the same
    configuration and any two loggers end a request to either route with
    the same outcome, the same response and the same counters; the log
    alone may differ. *)
Theorem serviceA_logger_is_silent {payload} (E : Env payload)
  (s s' : ServiceA.Server) (i : Inbound) (w : World) :
  ServiceA.config s' = ServiceA.config s ->
  in_path i = "/greet" \/ in_path i = "/health" ->
  let res := ServiceA.ServeHTTP E s i w in
  let res' := ServiceA.ServeHTTP E s' i w in
  res'.1 = res.1 /\ same_but_logs res.2 res'.2.
Proof.
  intros Hcfg [Hpath | Hpath] res res'; subst res res'.
  - rewrite !(ServeHTTP_greet E _ i w Hpath).
    destruct s as [cfg lg], s' as [cfg' lg']. cbn in Hcfg. subst cfg'.
    destruct w as [[h wr b] l o nu nn nw].
    unfold same_but_logs, fresh, ServiceA.authMiddleware. cbn.
    destruct (subtle.ConstantTimeCompare _ _ =? 1); cbn.
    + unfold ServiceA.handleGreet. cbn. bound_id. cbn.
      destruct (write_error E nw); cbn; repeat split.
    + repeat split.
  - rewrite !(ServeHTTP_health E _ i w Hpath).
    destruct s as [cfg lg], s' as [cfg' lg']. cbn in Hcfg. subst cfg'.
    destruct w as [[h wr b] l o nu nn nw].
    unfold same_but_logs, fresh, ServiceA.handleHealth. cbn.
    repeat split.
Qed.

Lemma serviceA_logger_is_silent_witness :
  rw (ServiceA.ServeHTTP env_up serverA_quiet greet_good world0).2
  = rw (ServiceA.ServeHTTP env_up serverA greet_good world0).2.
Proof.
  destruct (serviceA_logger_is_silent env_up serverA serverA_quiet greet_good
              world0) as (_ & H & _).
  - reflexivity.
  - left. reflexivity.
  - exact H.
Defined.

(** X12. The logger of Service B is write-only in the same sense, on
    every path through [handleProcess], the failing ones included. *)
Theorem serviceB_logger_is_silent (E : Env ServiceB.ServiceAResponse)
  (s s' : ServiceB.Server) (i : Inbound) (w : World) :
  ServiceB.config s' = ServiceB.config s ->
  in_path i = "/process" \/ in_path i = "/health" ->
  let res := ServiceB.ServeHTTP E s i w in
  let res' := ServiceB.ServeHTTP E s' i w in
  res'.1 = res.1 /\ same_but_logs res.2 res'.2.
Proof.
  intros Hcfg [Hpath | Hpath] res res'; subst res res'.
  - rewrite !(ServeHTTP_process E _ i w Hpath).
    destruct s as [cfg lg], s' as [cfg' lg']. cbn in Hcfg. subst cfg'.
    destruct w as [[h wr b] l o nu nn nw].
    unfold same_but_logs, fresh, ServiceB.handleProcess, ServiceB.greetRequest.
    cbn.
    destruct (url_error E _); cbn.
    { unfold ServiceB.handleError. cbn. repeat split. }
    destruct (do_result E _) as [e | [code bd]]; cbn.
    { unfold ServiceB.handleError. cbn. repeat split. }
    destruct (code =? http.StatusOK); cbn.
    2: { unfold ServiceB.handleError. cbn. repeat split. }
    destruct bd as [e | data]; cbn.
    { unfold ServiceB.handleError. cbn. repeat split. }
    destruct (unmarshal E data); cbn.
    { unfold ServiceB.handleError. cbn. repeat split. }
    destruct (write_error E nw); cbn; repeat split.
  - rewrite !(ServeHTTPB_health E _ i w Hpath).
    destruct s as [cfg lg], s' as [cfg' lg']. cbn in Hcfg. subst cfg'.
    destruct w as [[h wr b] l o nu nn nw].
    unfold same_but_logs, fresh, ServiceB.handleHealth. cbn.
    repeat split.
Qed.

Lemma serviceB_logger_is_silent_witness :
  rw (ServiceB.ServeHTTP env_up serverB_quiet process_request world0).2
  = rw (ServiceB.ServeHTTP env_up serverB process_request world0).2
  /\ (ServiceB.ServeHTTP env_down serverB_quiet process_request world0).1
     = (ServiceB.ServeHTTP env_down serverB process_request world0).1.
Proof.
  split.
  - destruct (serviceB_logger_is_silent env_up serverB serverB_quiet
                process_request world0) as (_ & H & _).
    + reflexivity.
    + left. reflexivity.
    + exact H.
  - destruct (serviceB_logger_is_silent env_down serverB serverB_quiet
                process_request world0) as (H & _).
    + reflexivity.
    + left. reflexivity.
    + exact H.
Defined.

(** ** The call to Service A *)

Section UpstreamCall.

Context (E : Env ServiceB.ServiceAResponse).

Lemma call_classified req :
  (exists data upstream, call_succeeds E req data upstream)
  \/ (exists logMessage statusCode,
        OutboundCallError E req logMessage statusCode).
Proof.
  unfold call_succeeds.
  destruct (url_error E (out_url req)) as [e|] eqn:Hurl.
  { right. eexists _, _. now apply (RequestConstruction E req e). }
  destruct (do_result E req) as [e | [code bd]] eqn:Hdo.
  { right. eexists _, _. now apply (Dispatch E req e). }
  destruct (Z.eq_dec code 200) as [-> | Hcode].
  2: { right. eexists _, _. now apply (NonSuccess E req code bd). }
  destruct bd as [e | data].
  { right. eexists _, _. now apply (BodyRead E req e). }
  destruct (unmarshal E data) as [e | upstream] eqn:Hun.
  { right. eexists _, _. now apply (BodyDecode E req data e). }
  left. now exists data, upstream.
Qed.

Lemma handleProcess_error_trace s r w logMessage statusCode :
  let req :=
    ServiceB.greetRequest s (Ctx (withRequestID r (uuids E (n_uuid w))))
      (uuids E (n_uuid w)) in
  context.Value (Ctx r) (context.KString "request_id") = None ->
  OutboundCallError E req logMessage statusCode ->
  outbound (ServiceB.handleProcess E s r w).2
  = outbound w ++
    match url_error E (out_url req) with
    | Some _ => []
    | None => [req]
    end.
Proof.
  intros req Hctx Herr. subst req.
  destruct w as [[h wr b] l o nu nn nw]. cbn in *.
  inversion Herr as [e Hurl | e Hurl Hdo | code bd Hurl Hdo Hcode
                    | e Hurl Hdo | data e Hurl Hdo Hun]; subst;
    rewrite Hurl;
    unfold ServiceB.greetRequest in Hurl; cbn [out_url] in Hurl;
    unfold ServiceB.handleProcess; cbn; rewrite Hurl; cbn;
    rewrite ?Hdo; cbn.
  3: apply Z.eqb_neq in Hcode; unfold http.StatusOK; rewrite Hcode; cbn.
  5: rewrite Hun.
  all: rewrite handleError_panics by assumption.
  all: cbn; now rewrite ?app_nil_r.
Qed.

Lemma handleError_run (s : ServiceB.Server) (r : Request)
  (err logMessage : string) (statusCode : Z) (w : World) (id : string) :
  context.Value (Ctx r) (context.KString "request_id")
  = Some (context.VString id) ->
  wrote (rw w) = None ->
  200 <= statusCode <= 999 -> statusCode <> 204 -> statusCode <> 304 ->
  exists w1,
    ServiceB.handleError E s r err logMessage statusCode w = (Ret tt, w1)
    /\ status w1 = Some statusCode
    /\ sentHeader w1 "Content-Type" = "text/plain; charset=utf-8"
    /\ sentHeader w1 "X-Content-Type-Options" = "nosniff"
    /\ body (rw w1)
       = body (rw w) ++ delivered E (n_write w) (Text (logMessage +:+ newline))
    /\ logs w1
       = logs w ++
         (if ServiceB.logger s <=? LevelError
          then [record LevelError logMessage
                  [AString "error" err; AString "request_id" id;
                   AString "client_ip" (RemoteAddr r);
                   AString "method" (Method r); AString "path" (Path r);
                   AInt "status_code" statusCode]]
          else [])
    /\ outbound w1 = outbound w.
Proof.
  intros Hid Hw Hc H1 H2.
  destruct w as [[h wr b] l o nu nn nw]. cbn in *. subst wr.
  unfold ServiceB.handleError. rewrite Hid. cbn.
  unfold http_Error. cbn. unfold bind at 1.
  rewrite WriteHeader_final by (cbn; trivial). cbn. unfold bind at 1.
  erewrite Write_committed;
    [| reflexivity | now apply bodyAllowed_final].
  cbn. eexists. split; [reflexivity|].
  unfold status, sentHeader. cbn. headers. repeat split.
Qed.

End UpstreamCall.

(** X13. A request to [/process] makes at most one call to Service A, and
    exactly one unless the URL does not parse, whatever becomes of the
    call: a GET to the configured URL followed by [/greet], carrying the
    configured key in [X-Auth-Key] and the identifier generated for the
    request both in [X-Request-ID] and in the context of the call. *)
Theorem process_calls_upstream_once (E : Env ServiceB.ServiceAResponse)
  (cfg : ServiceB.Config) (i : Inbound) (w : World) :
  let s := ServiceB.NewServer cfg in
  let id := uuids E (n_uuid w) in
  let req :=
    ServiceB.greetRequest s (Ctx (withRequestID (readRequest i) id)) id in
  in_path i = "/process" ->
  let res := ServiceB.ServeHTTP E s i w in
  outbound res.2
  = outbound w ++
    match url_error E (out_url req) with
    | Some _ => []
    | None => [req]
    end
  /\ out_method req = "GET"
  /\ out_url req = ServiceB.ServiceAURL cfg +:+ "/greet"
  /\ http.Get (out_header req) "X-Auth-Key" = ServiceB.ServiceAAuthKey cfg
  /\ http.Get (out_header req) "X-Request-ID" = id
  /\ context.Value (out_ctx req) (context.KString "request_id")
     = Some (context.VString id).
Proof.
  intros s id req Hpath res. subst res. split.
  - destruct (call_classified E req)
      as [(data & upstream & Hurl & Hdo & Hun) | (m & c & Herr)].
    + destruct (served_process_ok E cfg i w data upstream Hpath Hurl Hdo Hun)
        as (_ & _ & _ & _ & _ & Hout & _).
      subst s id req. rewrite Hout. now rewrite Hurl.
    + destruct (fresh_counters w) as (Hfu & _ & _ & Hfo & _).
      subst s id req. rewrite (ServeHTTP_process E _ i w Hpath).
      rewrite (handleProcess_error_trace E _ (readRequest i) (fresh w) m c
                 (readRequest_no_request_id i));
        rewrite Hfu; [now rewrite Hfo | exact Herr].
  - subst req. unfold ServiceB.greetRequest.
    cbn [out_method out_url out_header out_ctx].
    rewrite Get_Set_ne, !Get_Set_eq by other_key.
    repeat split.
Qed.

Lemma process_calls_upstream_once_witness :
  outbound (ServiceB.ServeHTTP env_down serverB process_request world0).2
  = [ServiceB.greetRequest serverB
       (Ctx (withRequestID (readRequest process_request) "id-0")) "id-0"].
Proof.
  destruct (process_calls_upstream_once env_down
              (ServiceB.mainConfig no_environment) process_request world0)
    as [H _].
  - reflexivity.
  - exact H.
Defined.

(** X14. Service B never sends an error status.  Every call to Service A
    either succeeds or fails in one of the five ways [handleProcess]
    distinguishes; a request to [/process] is answered with 200 exactly
    when the call succeeds, and ends in the panic of [handleError], with
    no status line sent, exactly when it fails. *)
Theorem process_answers_200_or_nothing (E : Env ServiceB.ServiceAResponse)
  (cfg : ServiceB.Config) (i : Inbound) (w : World) :
  let s := ServiceB.NewServer cfg in
  let id := uuids E (n_uuid w) in
  let req :=
    ServiceB.greetRequest s (Ctx (withRequestID (readRequest i) id)) id in
  in_path i = "/process" ->
  let res := ServiceB.ServeHTTP E s i w in
  (status res.2 = Some 200 \/ status res.2 = None)
  /\ (status res.2 = Some 200 <->
      exists data upstream, call_succeeds E req data upstream)
  /\ (res.1 = Panic nil_assertion <->
      exists logMessage statusCode,
        OutboundCallError E req logMessage statusCode)
  /\ (res.1 = Ret tt <-> status res.2 = Some 200).
Proof.
  intros s id req Hpath res.
  assert (Hok : (exists data upstream, call_succeeds E req data upstream) ->
                res.1 = Ret tt /\ status res.2 = Some 200).
  { intros (data & upstream & Hurl & Hdo & Hun).
    destruct (served_process_ok E cfg i w data upstream Hpath Hurl Hdo Hun)
      as (Hret & Hst & _). now split. }
  assert (Hko : (exists logMessage statusCode,
                   OutboundCallError E req logMessage statusCode) ->
                res.1 = Panic nil_assertion /\ status res.2 = None).
  { intros (m & c & Herr).
    destruct (fresh_counters w) as (Hfu & _).
    destruct (handleProcess_error E s (readRequest i) (fresh w) m c
                (readRequest_no_request_id i))
      as (w1 & Hrun & Hrw & _); [rewrite Hfu; exact Herr|].
    subst res. rewrite (ServeHTTP_process E s i w Hpath), Hrun.
    cbn [fst snd]. unfold status. now rewrite Hrw, fresh_rw. }
  destruct (call_classified E req) as [Hs | He].
  - destruct (Hok Hs) as [Hret Hst]. rewrite Hret, Hst.
    split; [now left|]. split; [tauto|]. split; [|tauto].
    split; [discriminate|]. intros He. destruct (Hko He) as [_ Hn].
    rewrite Hst in Hn. discriminate.
  - destruct (Hko He) as [Hret Hst]. rewrite Hret, Hst.
    split; [now right|]. split; [|split; [tauto|]].
    + split; [discriminate|]. intros Hs. destruct (Hok Hs) as [_ Hn].
      rewrite Hst in Hn. discriminate.
    + split; discriminate.
Qed.

Lemma process_answers_200_or_nothing_witness :
  (status (ServiceB.ServeHTTP env_down serverB process_request world0).2
   = Some 200
   \/ status (ServiceB.ServeHTTP env_down serverB process_request world0).2
      = None)
  /\ (status (ServiceB.ServeHTTP env_up serverB process_request world0).2
      = Some 200
      \/ status (ServiceB.ServeHTTP env_up serverB process_request world0).2
         = None).
Proof.
  split.
  - destruct (process_answers_200_or_nothing env_down
                (ServiceB.mainConfig no_environment) process_request world0)
      as [H _].
    + reflexivity.
    + exact H.
  - destruct (process_answers_200_or_nothing env_up
                (ServiceB.mainConfig no_environment) process_request world0)
      as [H _].
    + reflexivity.
    + exact H.
Defined.

(** X15. [handleError] with the identifier bound, which no call in the
    program provides: it returns, the response has the status it was
    given with a plain-text body made of the message and a newline, no
    call to Service A is made, and the one record logged, at the error
    level, carries the cause, the identifier and the status. *)
Theorem handleError_answers (E : Env ServiceB.ServiceAResponse)
  (s : ServiceB.Server) (r : Request) (err logMessage : string)
  (statusCode : Z) (w : World) (id : string) :
  context.Value (Ctx r) (context.KString "request_id")
  = Some (context.VString id) ->
  wrote (rw w) = None ->
  200 <= statusCode <= 999 -> statusCode <> 204 -> statusCode <> 304 ->
  let res := ServiceB.handleError E s r err logMessage statusCode w in
  res.1 = Ret tt
  /\ status res.2 = Some statusCode
  /\ sentHeader res.2 "Content-Type" = "text/plain; charset=utf-8"
  /\ sentHeader res.2 "X-Content-Type-Options" = "nosniff"
  /\ body (rw res.2)
     = body (rw w) ++ delivered E (n_write w) (Text (logMessage +:+ newline))
  /\ logs res.2
     = logs w ++
       (if ServiceB.logger s <=? LevelError
        then [record LevelError logMessage
                [AString "error" err; AString "request_id" id;
                 AString "client_ip" (RemoteAddr r);
                 AString "method" (Method r); AString "path" (Path r);
                 AInt "status_code" statusCode]]
        else [])
  /\ outbound res.2 = outbound w.
Proof.
  intros Hid Hw Hc H1 H2 res.
  destruct (handleError_run E s r err logMessage statusCode w id
              Hid Hw Hc H1 H2) as (w1 & Hrun & Hrest).
  subst res. rewrite Hrun. split; [reflexivity | exact Hrest].
Qed.

Lemma handleError_answers_witness :
  let res :=
    ServiceB.handleError env_down serverB
      (withRequestID (readRequest process_request) "id-0")
      "dial tcp: connection refused" "Failed to call Service A" 503 world0 in
  status res.2 = Some 503
  /\ body (rw res.2) = [Text ("Failed to call Service A" +:+ newline)].
Proof.
  destruct (handleError_answers env_down serverB
              (withRequestID (readRequest process_request) "id-0")
              "dial tcp: connection refused" "Failed to call Service A" 503
              world0 "id-0")
    as (_ & Hst & _ & _ & Hb & _).
  - apply withRequestID_value.
  - reflexivity.
  - lia.
  - lia.
  - lia.
  - split; [exact Hst | exact Hb].
Defined.

(** ** A response that cannot be written *)

(** X16. When writing the greeting fails, the status line sent is still
    200 with the JSON content type: the 500 that [handleGreet] then asks
    for comes too late.  The handler returns, the header map is left with
    the plain-text content type of [http.Error], the only body the client
    may still receive is the text of that error, and the failure is
    logged. *)
Theorem greet_encode_failure {payload} (E : Env payload)
  (getenv : string -> string) (i : Inbound) (w : World) (e : string) :
  let s := ServiceA.NewServer (ServiceA.mainConfig getenv) in
  in_path i = "/greet" ->
  http.Get (in_header i) "X-Auth-Key" = ServiceA.AuthKey (ServiceA.config s) ->
  write_error E (n_write w) = Some e ->
  let res := ServiceA.ServeHTTP E s i w in
  res.1 = Ret tt
  /\ status res.2 = Some 200
  /\ sentHeader res.2 "Content-Type" = "application/json"
  /\ http.Get (header (rw res.2)) "Content-Type" = "text/plain; charset=utf-8"
  /\ body (rw res.2)
     = delivered E (S (n_write w)) (Text ("Internal Server Error" +:+ newline))
  /\ messages_since w res.2
     = ["Authentication attempt"; "Authentication successful";
        "Processing greeting request"; "Failed to encode response"].
Proof.
  intros s Hpath Hkey Hwr res. subst res s.
  rewrite (ServeHTTP_greet E _ i w Hpath).
  destruct w as [r0 l o nu nn nw]. cbn in Hwr, Hkey.
  unfold fresh, messages_since, logged_since, ServiceA.authMiddleware.
  cbn. rewrite Hkey, compare_eqb_true. cbn.
  unfold ServiceA.handleGreet. cbn. bound_id. cbn. rewrite Hwr. cbn.
  unfold status, sentHeader, delivered. cbn.
  rewrite <- !app_assoc, drop_app_length. headers.
  repeat split.
Qed.

Lemma greet_encode_failure_witness :
  let res := ServiceA.ServeHTTP env_broken_pipe serverA greet_good world0 in
  status res.2 = Some 200 /\ body (rw res.2) = [].
Proof.
  destruct (greet_encode_failure env_broken_pipe no_environment greet_good
              world0 "write: broken pipe")
    as (_ & Hst & _ & _ & Hb & _).
  - reflexivity.
  - vm_compute. reflexivity.
  - reflexivity.
  - split; [exact Hst | exact Hb].
Defined.

(** X17. The same on [/process]: once Service A has answered, a failure
    to write the combined response leaves the client with status 200 and
    at most the text of the error, and the request ends without a
    panic. *)
Theorem process_encode_failure (E : Env ServiceB.ServiceAResponse)
  (getenv : string -> string) (i : Inbound) (w : World)
  (data e : string) (upstream : ServiceB.ServiceAResponse) :
  let s := ServiceB.NewServer (ServiceB.mainConfig getenv) in
  let id := uuids E (n_uuid w) in
  let req :=
    ServiceB.greetRequest s (Ctx (withRequestID (readRequest i) id)) id in
  in_path i = "/process" ->
  call_succeeds E req data upstream ->
  write_error E (n_write w) = Some e ->
  let res := ServiceB.ServeHTTP E s i w in
  res.1 = Ret tt
  /\ status res.2 = Some 200
  /\ sentHeader res.2 "Content-Type" = "application/json"
  /\ http.Get (header (rw res.2)) "Content-Type" = "text/plain; charset=utf-8"
  /\ body (rw res.2)
     = delivered E (S (n_write w)) (Text ("Internal Server Error" +:+ newline))
  /\ messages_since w res.2
     = ["Processing service interaction request"; "Calling Service A";
        "Received response from Service A"; "Preparing response";
        "Failed to encode response"].
Proof.
  intros s id req Hpath (Hurl & Hdo & Hun) Hwr res. subst res req id s.
  assert (Hlvl : ServiceB.LogLevel (ServiceB.mainConfig getenv) = LevelInfo)
    by reflexivity.
  destruct (ServiceB.mainConfig getenv) as [port lvl url key].
  cbn in Hlvl. subst lvl.
  rewrite (ServeHTTP_process E _ i w Hpath).
  destruct w as [r0 l o nu nn nw]. cbn in Hwr, Hurl, Hdo.
  unfold ServiceB.greetRequest in Hurl. cbn [out_url] in Hurl.
  cbn in Hurl.
  unfold fresh, messages_since, logged_since, ServiceB.handleProcess.
  cbn. rewrite Hurl. cbn. rewrite Hdo. cbn. rewrite Hun. cbn.
  rewrite Hwr. cbn.
  unfold status, sentHeader, delivered. cbn.
  rewrite <- !app_assoc, drop_app_length. headers.
  repeat split.
Qed.

Lemma process_encode_failure_witness :
  let res :=
    ServiceB.ServeHTTP env_broken_pipe serverB process_request world0 in
  res.1 = Ret tt /\ status res.2 = Some 200 /\ body (rw res.2) = [].
Proof.
  destruct (process_encode_failure env_broken_pipe no_environment
              process_request world0 "{greeting}" "write: broken pipe"
              sample_greeting)
    as (Hret & Hst & _ & _ & Hb & _).
  - reflexivity.
  - repeat split.
  - reflexivity.
  - split; [exact Hret|]. split; [exact Hst | exact Hb].
Defined.

(** X18. The health handlers of both services drop the error of the
    encoder: when the write fails the client has status 200 and no body,
    the handler returns, and the log shows a completed health check and
    nothing else. *)
Theorem health_ignores_write_failure {payload} (EA : Env payload)
  (EB : Env ServiceB.ServiceAResponse)
  (getenv : string -> string) (i : Inbound) (w : World) (e : string) :
  let sA := ServiceA.NewServer (ServiceA.mainConfig getenv) in
  let sB := ServiceB.NewServer (ServiceB.mainConfig getenv) in
  in_path i = "/health" ->
  write_error EA (n_write w) = Some e ->
  write_error EB (n_write w) = Some e ->
  let resA := ServiceA.ServeHTTP EA sA i w in
  let resB := ServiceB.ServeHTTP EB sB i w in
  (resA.1 = Ret tt /\ status resA.2 = Some 200 /\ body (rw resA.2) = []
   /\ messages_since w resA.2
      = ["Health check received"; "Health check completed"])
  /\ (resB.1 = Ret tt /\ status resB.2 = Some 200 /\ body (rw resB.2) = []
      /\ messages_since w resB.2
         = ["Health check received"; "Health check completed"]).
Proof.
  intros sA sB Hpath HwA HwB resA resB. subst resA resB sA sB.
  rewrite (ServeHTTP_health EA _ i w Hpath).
  rewrite (ServeHTTPB_health EB _ i w Hpath).
  destruct w as [r0 l o nu nn nw]. cbn in HwA, HwB.
  unfold fresh, messages_since, logged_since, ServiceA.handleHealth,
    ServiceB.handleHealth.
  cbn. rewrite HwA, HwB. cbn.
  rewrite <- !app_assoc, !drop_app_length. repeat split.
Qed.

Lemma health_ignores_write_failure_witness :
  messages_since world0
    (ServiceA.ServeHTTP env_broken_pipe serverA health_request world0).2
  = ["Health check received"; "Health check completed"]
  /\ body
       (rw (ServiceB.ServeHTTP env_broken_pipe serverB health_request
              world0).2)
     = [].
Proof.
  destruct (health_ignores_write_failure env_broken_pipe env_broken_pipe
              no_environment health_request world0 "write: broken pipe")
    as ((_ & _ & _ & HA) & (_ & _ & HB & _)).
  - reflexivity.
  - reflexivity.
  - reflexivity.
  - split; [exact HA | exact HB].
Defined.

(** ** Panics, and the two services together *)

(** X19. Service A never panics on its routes, whatever the
    configuration, the request and the environment: the type assertion in
    [handleGreet] cannot fail behind [authMiddleware], which binds the
    identifier first.  Called without the middleware, [handleGreet]
    panics at once and writes nothing. *)
Theorem serviceA_never_panics {payload} (E : Env payload)
  (cfg : ServiceA.Config) (i : Inbound) (w : World) :
  let s := ServiceA.NewServer cfg in
  (in_path i = "/greet" \/ in_path i = "/health" ->
   (ServiceA.ServeHTTP E s i w).1 = Ret tt)
  /\ ServiceA.handleGreet E s (readRequest i) w = (Panic nil_assertion, w).
Proof.
  intros s. split; [|reflexivity].
  intros [Hpath | Hpath].
  - destruct (string_dec (http.Get (in_header i) "X-Auth-Key")
                (ServiceA.AuthKey cfg)) as [Heq | Hne].
    + apply (served_greet_accepted E cfg i w Hpath Heq).
    + apply (served_greet_rejected E s i w Hpath Hne).
  - apply (served_healthA E s i w Hpath).
Qed.

(** ** The request of Service B on its way to Service A *)

Section Transit.



End Transit.

